(** * simpleviper: a shallow embedding of [Viperlet], [New], the options
    and [Viperlet.Init] (simpleviper.go), together with the parts of the
    collaborators it drives: a string-typed [pflag.FlagSet] and the layered
    lookup of a [viper.Viper] store. *)

From Stdlib Require Import String Ascii List Bool Arith Lia.
Import ListNotations.
Open Scope string_scope.
Open Scope list_scope.

(* ------------------------------------------------------------------ *)
(** ** Strings: ASCII case mapping used by viper's key handling *)

Definition ascii_lower (c : ascii) : ascii :=
  let n := nat_of_ascii c in
  if (65 <=? n)%nat && (n <=? 90)%nat then ascii_of_nat (n + 32)%nat else c.

Definition ascii_upper (c : ascii) : ascii :=
  let n := nat_of_ascii c in
  if (97 <=? n)%nat && (n <=? 122)%nat then ascii_of_nat (n - 32)%nat else c.

(** [strings.ToLower] / [strings.ToUpper], on the ASCII range. *)
Fixpoint ToLower (s : string) : string :=
  match s with
  | EmptyString => EmptyString
  | String c s' => String (ascii_lower c) (ToLower s')
  end.

Fixpoint ToUpper (s : string) : string :=
  match s with
  | EmptyString => EmptyString
  | String c s' => String (ascii_upper c) (ToUpper s')
  end.

(** A key with no key delimiter ("." in viper): a path of one element,
    which no nested path of the store can shadow. *)
Definition flat_key (k : string) : bool :=
  negb (existsb (Ascii.eqb "."%char) (list_ascii_of_string k)).

(** Association lists: Go maps keyed by string; the first binding wins. *)
Fixpoint assoc {A} (k : string) (l : list (string * A)) : option A :=
  match l with
  | [] => None
  | (k', a) :: l' => if String.eqb k k' then Some a else assoc k l'
  end.

(* ------------------------------------------------------------------ *)
(** ** [*strings.Replacer] (strings.NewReplacer(oldnew...))

    At each position the first pair, in argument order, whose old string
    is a prefix of the remaining input is replaced; an empty old string
    matches at every position (and once at the end of the input). *)

Record Replacer := mkReplacer { oldnew : list (string * string) }.

Fixpoint first_match (pairs : list (string * string)) (s : string)
  : option (string * string) :=
  match pairs with
  | [] => None
  | (o, n) :: ps => if String.prefix o s then Some (o, n) else first_match ps s
  end.

Fixpoint replace_go (pairs : list (string * string)) (fuel : nat) (s : string)
  : string :=
  match fuel with
  | O => s
  | S fuel' =>
      match s with
      | EmptyString =>
          match first_match pairs EmptyString with
          | Some (_, n) => n
          | None => EmptyString
          end
      | String c rest =>
          match first_match pairs s with
          | Some (o, n) =>
              match o with
              | EmptyString => String.append n (String c (replace_go pairs fuel' rest))
              | _ => String.append n
                       (replace_go pairs fuel' (substring (String.length o)
                                                 (String.length s) s))
              end
          | None => String c (replace_go pairs fuel' rest)
          end
      end
  end.

Definition Replace (r : Replacer) (s : string) : string :=
  replace_go (oldnew r) (S (String.length s)) s.

(* ------------------------------------------------------------------ *)
(** ** pflag: string-typed flags and a flag set

    A flag set is the list of its flags in [VisitAll] order (sorted by
    name, pflag's default).  pflag keeps the flags in a map, so names are
    distinct; [names_distinct] states it where a lemma needs it.  The
    flags are string flags ([fs.String], [fs.StringVar]): the value of
    such a flag stores the text it is set to as given and never rejects
    it, so [ValueString] is the text last set.  Typed flags (int, bool,
    durations, slices), whose [Set] parses, normalises, rejects or appends,
    are outside the model. *)

Record Flag := mkFlag {
  f_name : string;
  f_value : string;     (* Value.String() *)
  f_default : string;   (* DefValue *)
  f_changed : bool      (* Changed: set on the command line or by Set *)
}.

Definition FlagSet := list Flag.

Fixpoint lookup_flag (fs : FlagSet) (name : string) : option Flag :=
  match fs with
  | [] => None
  | f :: fs' => if String.eqb (f_name f) name then Some f else lookup_flag fs' name
  end.

Fixpoint names_distinct (l : list string) : bool :=
  match l with
  | [] => true
  | x :: l' => negb (existsb (String.eqb x) l') && names_distinct l'
  end.

Definition flag_names (fs : FlagSet) : list string := map f_name fs.

(** [FlagSet.Set(name, value)] on a flag set of string flags: [None] is
    the "no such flag" error; otherwise the string value's [Set] stores
    the text and cannot fail, and the flag is marked [Changed]. *)
Definition FlagSet_Set (fs : FlagSet) (name value : string) : option FlagSet :=
  match lookup_flag fs name with
  | None => None
  | Some _ =>
      Some (map (fun f => if String.eqb (f_name f) name
                          then mkFlag (f_name f) value (f_default f) true
                          else f) fs)
  end.

(* ------------------------------------------------------------------ *)
(** ** The viper store

    The fields [find] reads, keyed by lower-cased key (viper lower-cases
    every key it stores).  The model is of a store as [viper.New()] makes
    it and as [Set], [SetDefault], [BindEnv], [AllowEmptyEnv] and
    [SetConfigType] configure it: no alias registered ([RegisterAlias]),
    type-by-default-value off ([SetTypeByDefaultValue]), and flat keys
    (names without the key delimiter ".", so no nested path shadows
    another).  Values are held as the text [GetString] casts them to.

    [v_pflags] maps a key to the name of the bound flag.  viper keeps a
    pointer to the [*pflag.Flag]; the name is that pointer into the flag
    set [Init] binds, and lookups read the live flag set, so a later
    [FlagSet.Set] is seen by the store as it is in Go. *)

Record Viper := mkViper {
  v_override : list (string * string);        (* Set *)
  v_pflags : list (string * string);          (* BindPFlag: key -> flag *)
  v_automaticEnvApplied : bool;               (* AutomaticEnv *)
  v_envPrefix : string;                       (* SetEnvPrefix *)
  v_envKeyReplacer : option Replacer;         (* SetEnvKeyReplacer *)
  v_allowEmptyEnv : bool;                     (* AllowEmptyEnv *)
  v_env : list (string * list string);        (* BindEnv *)
  v_configFile : string;                      (* SetConfigFile *)
  v_configType : string;                      (* SetConfigType *)
  v_config : list (string * string);          (* ReadInConfig *)
  v_kvstore : list (string * string);         (* remote key/value store *)
  v_defaults : list (string * string)         (* SetDefault *)
}.

(** [viper.New()]. *)
Definition viper_New : Viper :=
  mkViper [] [] false "" None false [] "" "" [] [] [].

(** The process environment, as a snapshot of [NAME=value] pairs. *)
Definition Env := list (string * string).

Definition LookupEnv (env : Env) (key : string) : option string := assoc key env.

(** [v.getEnv]: the replacer is applied, and an empty variable counts as
    unset unless [AllowEmptyEnv] was called. *)
Definition envKey (v : Viper) (key : string) : string :=
  match v_envKeyReplacer v with
  | Some r => Replace r key
  | None => key
  end.

Definition getEnv (v : Viper) (env : Env) (key : string) : option string :=
  match LookupEnv env (envKey v key) with
  | Some val => if v_allowEmptyEnv v || negb (String.eqb val "") then Some val else None
  | None => None
  end.

(** [v.mergeWithEnvPrefix]. *)
Definition mergeWithEnvPrefix (v : Viper) (k : string) : string :=
  if String.eqb (v_envPrefix v) "" then ToUpper k
  else ToUpper (String.append (v_envPrefix v) (String.append "_" k)).

(** The first bound variable that [getEnv] finds. *)
Fixpoint first_env (get : string -> option string) (keys : list string) : option string :=
  match keys with
  | [] => None
  | k :: ks => match get k with
               | Some val => Some val
               | None => first_env get ks
               end
  end.

(** The bound flag for a key, read from the live flag set. *)
Definition pflag_of (v : Viper) (fs : FlagSet) (k : string) : option Flag :=
  match assoc k (v_pflags v) with
  | Some name => lookup_flag fs name
  | None => None
  end.

(** The automatic-environment layer of [find]. *)
Definition env_layer (v : Viper) (env : Env) (k : string) : option string :=
  if v_automaticEnvApplied v then getEnv v env (mergeWithEnvPrefix v k) else None.

(** The flag layer of [find]: the bound flag, when it has [Changed]. *)
Definition pflag_layer (v : Viper) (fs : FlagSet) (k : string) : option string :=
  match pflag_of v fs k with
  | Some f => if f_changed f then Some (f_value f) else None
  | None => None
  end.

(** The [BindEnv] layer of [find]. *)
Definition bound_env_layer (v : Viper) (env : Env) (k : string) : option string :=
  match assoc k (v_env v) with
  | Some keys => first_env (getEnv v env) keys
  | None => None
  end.

(** The flag-default fallback of [find] ("last chance"): the flag's value
    even when it has not been changed. *)
Definition flag_default_layer (v : Viper) (fs : FlagSet) (k : string) : option string :=
  match pflag_of v fs k with
  | Some f => Some (f_value f)
  | None => None
  end.

(** Return the first value found, as [find]'s sequence of early returns. *)
Definition or_else (a : option string) (b : option string) : option string :=
  match a with
  | Some x => Some x
  | None => b
  end.

(** [v.find(lcaseKey, flagDefault)]: override, changed flag, automatic
    environment, bound environment, config file, key/value store, defaults
    and, for [flagDefault], the flag's own value.  For the stores of the
    model (no alias to resolve, a flat key, so no nested path to search or
    shadow) and string flags (whose value [find] returns as
    [ValueString()], with no typed cast), these are all of [find]'s
    steps; [Get] with type-by-default-value off returns that value and
    [GetString] casts it to text. *)
Definition find (v : Viper) (env : Env) (fs : FlagSet) (k : string)
    (flagDefault : bool) : option string :=
  or_else (assoc k (v_override v))
  (or_else (pflag_layer v fs k)
  (or_else (env_layer v env k)
  (or_else (bound_env_layer v env k)
  (or_else (assoc k (v_config v))
  (or_else (assoc k (v_kvstore v))
  (or_else (assoc k (v_defaults v))
  (if flagDefault then flag_default_layer v fs k else None))))))).

(** [v.IsSet(key)]. *)
Definition IsSet (v : Viper) (env : Env) (fs : FlagSet) (key : string) : bool :=
  match find v env fs (ToLower key) false with
  | Some _ => true
  | None => false
  end.

(** [v.GetString(key)]: [cast.ToString] of [Get], [""] for nil. *)
Definition GetString (v : Viper) (env : Env) (fs : FlagSet) (key : string) : string :=
  match find v env fs (ToLower key) true with
  | Some s => s
  | None => ""
  end.

(** [v.BindPFlags(flags)]: [BindPFlag] for every flag in [VisitAll] order;
    the error case of [BindPFlag] is a nil flag, which a flag set never
    holds, so binding a flag set cannot fail. *)
Definition BindPFlags (v : Viper) (fs : FlagSet) : Viper :=
  let pf := fold_left (fun acc f => (ToLower (f_name f), f_name f) :: acc) fs (v_pflags v) in
  mkViper (v_override v) pf (v_automaticEnvApplied v) (v_envPrefix v)
    (v_envKeyReplacer v) (v_allowEmptyEnv v) (v_env v) (v_configFile v) (v_configType v)
    (v_config v) (v_kvstore v) (v_defaults v).

Definition SetEnvPrefix (v : Viper) (p : string) : Viper :=
  if String.eqb p "" then v else
  mkViper (v_override v) (v_pflags v) (v_automaticEnvApplied v) p
    (v_envKeyReplacer v) (v_allowEmptyEnv v) (v_env v) (v_configFile v) (v_configType v)
    (v_config v) (v_kvstore v) (v_defaults v).

Definition SetEnvKeyReplacer (v : Viper) (r : Replacer) : Viper :=
  mkViper (v_override v) (v_pflags v) (v_automaticEnvApplied v) (v_envPrefix v)
    (Some r) (v_allowEmptyEnv v) (v_env v) (v_configFile v) (v_configType v)
    (v_config v) (v_kvstore v) (v_defaults v).

Definition AutomaticEnv (v : Viper) : Viper :=
  mkViper (v_override v) (v_pflags v) true (v_envPrefix v)
    (v_envKeyReplacer v) (v_allowEmptyEnv v) (v_env v) (v_configFile v) (v_configType v)
    (v_config v) (v_kvstore v) (v_defaults v).

Definition SetConfigFile (v : Viper) (in_ : string) : Viper :=
  if String.eqb in_ "" then v else
  mkViper (v_override v) (v_pflags v) (v_automaticEnvApplied v) (v_envPrefix v)
    (v_envKeyReplacer v) (v_allowEmptyEnv v) (v_env v) in_ (v_configType v)
    (v_config v) (v_kvstore v) (v_defaults v).

(* ------------------------------------------------------------------ *)
(** ** Reading the configuration file

    The file system is an oracle giving, for a path, what reading and
    parsing it yields.  [ReadInConfig] with an explicit config file first
    checks the config type (the store's [SetConfigType], else the path's
    extension) against viper's supported extensions, and returns
    [UnsupportedConfigError] without reading when it is not one; then it
    reads the file (a missing file gives an [*os.PathError] wrapping
    [os.ErrNotExist]), parses it and, on success, replaces the config
    layer with its top-level keys, lower-cased. *)

Inductive FileState :=
| FileAbsent
| FileUnreadable (msg : string)
| FileUnparsable (msg : string)
| FileContents (kv : list (string * string)).

Inductive Error :=
| ErrNotExist (path : string)       (* *os.PathError, os.ErrNotExist *)
| ErrIO (msg : string)              (* any other I/O error *)
| ConfigParseError (msg : string)   (* viper.ConfigParseError *)
| UnsupportedConfigError (configType : string).  (* viper.UnsupportedConfigError *)

Record World := mkWorld {
  w_env : Env;
  w_files : string -> FileState
}.

Definition insensitivise (kv : list (string * string)) : list (string * string) :=
  map (fun p => (ToLower (fst p), snd p)) kv.

(** [viper.SupportedExts]. *)
Definition SupportedExts : list string :=
  ["json"; "toml"; "yaml"; "yml"; "properties"; "props"; "prop"; "hcl"; "tfvars";
   "dotenv"; "env"; "ini"].

Definition is_supported (t : string) : bool := existsb (String.eqb t) SupportedExts.

(** [filepath.Ext] without its dot: the text after the last "." of the
    last path element ([None] when that element has no "."). *)
Fixpoint ext_go (s : string) (acc : option string) : option string :=
  match s with
  | EmptyString => acc
  | String c s' =>
      if Ascii.eqb c "/"%char then ext_go s' None
      else if Ascii.eqb c "."%char then ext_go s' (Some "")
      else ext_go s' (option_map (fun e => String.append e (String c EmptyString)) acc)
  end.

(** [v.getConfigType()] for a store with config type [ct] and config
    file [cf]: [ct] if set, else the extension of [cf] without its dot. *)
Definition config_type (ct cf : string) : string :=
  if negb (String.eqb ct "") then ct
  else match ext_go cf None with
       | Some e => e
       | None => ""
       end.

Definition getConfigType (v : Viper) : string := config_type (v_configType v) (v_configFile v).

(** [v.ReadInConfig()] once [SetConfigFile] has set the path. *)
Definition ReadInConfig (files : string -> FileState) (v : Viper) : Viper * option Error :=
  if negb (is_supported (getConfigType v)) then
    (v, Some (UnsupportedConfigError (getConfigType v)))
  else
  match files (v_configFile v) with
  | FileAbsent => (v, Some (ErrNotExist (v_configFile v)))
  | FileUnreadable m => (v, Some (ErrIO m))
  | FileUnparsable m => (v, Some (ConfigParseError m))
  | FileContents kv =>
      (mkViper (v_override v) (v_pflags v) (v_automaticEnvApplied v) (v_envPrefix v)
         (v_envKeyReplacer v) (v_allowEmptyEnv v) (v_env v) (v_configFile v) (v_configType v)
         (insensitivise kv) (v_kvstore v) (v_defaults v), None)
  end.

(** [errors.Is(err, viper.ConfigFileNotFoundError{}) || errors.Is(err, os.ErrNotExist)]. *)
Definition is_not_found (e : Error) : bool :=
  match e with
  | ErrNotExist _ => true
  | _ => false
  end.

(* ------------------------------------------------------------------ *)
(** ** Viperlet, its options and [New] *)

Record Viperlet := mkViperlet {
  viper : option Viper;                 (* nil until Viper() or WithViper *)
  bindEnv : bool;
  envPrefix : string;
  envKeyReplacer : option Replacer;     (* *strings.Replacer, nil = None *)
  configFile : string;
  allowMissingConfig : bool
}.

(** [new(Viperlet)]: the zero value. *)
Definition new_Viperlet : Viperlet := mkViperlet None false "" None "" false.

(** [Viperlet.Viper()]: the store, created on first use. *)
Definition Viperlet_Viper (v : Viperlet) : Viper :=
  match viper v with
  | Some x => x
  | None => viper_New
  end.

(** The [Option] constructors of simpleviper.go, one per function. *)
Inductive Option :=
| WithViper (x : option Viper)
| WithEnv
| WithEnvPrefix (prefix : string)
| WithEnvKeyReplacer (replacer : option Replacer)
| WithConfig (config : string)
| WithOptionalConfig (config : string).

(** What each option's closure does to the [*Viperlet]. *)
Definition apply_opt (o : Option) (v : Viperlet) : Viperlet :=
  match o with
  | WithViper x =>
      mkViperlet x (bindEnv v) (envPrefix v) (envKeyReplacer v) (configFile v) (allowMissingConfig v)
  | WithEnv =>
      mkViperlet (viper v) true (envPrefix v) (envKeyReplacer v) (configFile v) (allowMissingConfig v)
  | WithEnvPrefix prefix =>
      mkViperlet (viper v) true prefix (envKeyReplacer v) (configFile v) (allowMissingConfig v)
  | WithEnvKeyReplacer r =>
      mkViperlet (viper v) true (envPrefix v) r (configFile v) (allowMissingConfig v)
  | WithConfig config =>
      mkViperlet (viper v) (bindEnv v) (envPrefix v) (envKeyReplacer v) config false
  | WithOptionalConfig config =>
      mkViperlet (viper v) (bindEnv v) (envPrefix v) (envKeyReplacer v) config true
  end.

(** [New(opts...)]: the options applied in order to a fresh Viperlet. *)
Definition New (opts : list Option) : Viperlet :=
  fold_left (fun v o => apply_opt o v) opts new_Viperlet.

(* ------------------------------------------------------------------ *)
(** ** [Viperlet.Init] *)

(** How a call ends: it returns an error value, or it panics (a nil
    pointer dereference). *)
Inductive Outcome :=
| Returned (err : option Error)
| Panicked.

Record InitResult := mkInitResult {
  r_viperlet : Viperlet;           (* the receiver afterwards *)
  r_flagset : option FlagSet;      (* the flag set afterwards *)
  r_outcome : Outcome
}.

(** The closure passed to [VisitAll], for the flag named [name]; the error
    of [flagset.Set] is discarded. *)
Definition write_back_one (v : Viper) (env : Env) (fs : FlagSet) (name : string) : FlagSet :=
  if IsSet v env fs name && negb (String.eqb (GetString v env fs name) "") then
    match FlagSet_Set fs name (GetString v env fs name) with
    | Some fs' => fs'
    | None => fs
    end
  else fs.

Fixpoint visit_all (v : Viper) (env : Env) (names : list string) (fs : FlagSet) : FlagSet :=
  match names with
  | [] => fs
  | n :: ns => visit_all v env ns (write_back_one v env fs n)
  end.

(** [flagset.VisitAll(...)] over a non-nil flag set. *)
Definition write_back (v : Viper) (env : Env) (fs : FlagSet) : FlagSet :=
  visit_all v env (flag_names fs) fs.

(** Step 2: bind to env. *)
Definition bind_env_step (vl : Viperlet) (st : Viper) : Viper :=
  if bindEnv vl then
    let st := if String.eqb (envPrefix vl) "" then st else SetEnvPrefix st (envPrefix vl) in
    let st := match envKeyReplacer vl with
              | Some r => SetEnvKeyReplacer st r
              | None => st
              end in
    AutomaticEnv st
  else st.

(** Step 3: read in config if specified; [Some e] is the error returned. *)
Definition config_step (files : string -> FileState) (vl : Viperlet) (st : Viper)
  : Viper * option Error :=
  if String.eqb (configFile vl) "" then (st, None) else
  match ReadInConfig files (SetConfigFile st (configFile vl)) with
  | (st', None) => (st', None)
  | (st', Some err) =>
      if negb (allowMissingConfig vl) then (st', Some err)
      else if negb (is_not_found err) then (st', Some err)
      else (st', None)
  end.

Definition set_viper (vl : Viperlet) (st : Viper) : Viperlet :=
  mkViperlet (Some st) (bindEnv vl) (envPrefix vl) (envKeyReplacer vl)
    (configFile vl) (allowMissingConfig vl).

(** [(v *Viperlet) Init(flagset *pflag.FlagSet) error]; [None] is a nil
    flag set. *)
Definition Init (w : World) (vl : Viperlet) (flagset : option FlagSet) : InitResult :=
  let st0 := Viperlet_Viper vl in
  let st1 := match flagset with
             | Some fs => BindPFlags st0 fs
             | None => st0
             end in
  let st2 := bind_env_step vl st1 in
  let (st3, cfg_err) := config_step (w_files w) vl st2 in
  let vl' := set_viper vl st3 in
  match cfg_err with
  | Some e => mkInitResult vl' flagset (Returned (Some e))
  | None =>
      match flagset with
      | None => mkInitResult vl' None Panicked   (* nil.VisitAll reads f.formal *)
      | Some fs => mkInitResult vl' (Some (write_back st3 (w_env w) fs)) (Returned None)
      end
  end.

(* ------------------------------------------------------------------ *)
(** ** The earlier version of simpleviper.go

    The second half of the source file is the package as it was before
    [Viper()] created the store on first use: [New] creates the store,
    [Viper()] returns the field, [Init] binds the flag set without a nil
    check, and a missing optional config file is recognised by a type
    assertion on [viper.ConfigFileNotFoundError] only.  The options are
    the same closures as above ([apply_opt]). *)

Module SimpleviperV0.

(** [err.(viper.ConfigFileNotFoundError)]: viper returns that error only
    when it searches its config paths; with an explicit config file the
    errors of [ReadInConfig] are the file system's and the parser's. *)
Definition is_ConfigFileNotFoundError (e : Error) : bool :=
  match e with
  | ErrNotExist _ => false        (* *os.PathError *)
  | ErrIO _ => false
  | ConfigParseError _ => false
  | UnsupportedConfigError _ => false
  end.

(** [New(opts...)]: the options, then [viper.New()] if no store was
    passed. *)
Definition New (opts : list Option) : Viperlet :=
  let v := fold_left (fun v o => apply_opt o v) opts new_Viperlet in
  match viper v with
  | None => mkViperlet (Some viper_New) (bindEnv v) (envPrefix v) (envKeyReplacer v)
              (configFile v) (allowMissingConfig v)
  | Some _ => v
  end.

(** [Viper()]: the field as it is, [None] for nil. *)
Definition Viperlet_Viper (v : Viperlet) : option Viper := viper v.

(** Step 3 of the earlier [Init]. *)
Definition config_step (files : string -> FileState) (vl : Viperlet) (st : Viper)
  : Viper * option Error :=
  if String.eqb (configFile vl) "" then (st, None) else
  match ReadInConfig files (SetConfigFile st (configFile vl)) with
  | (st', None) => (st', None)
  | (st', Some err) =>
      if allowMissingConfig vl then
        if negb (is_ConfigFileNotFoundError err) then (st', Some err) else (st', None)
      else (st', Some err)
  end.

(** The earlier [Init].  With a nil store every viper method that writes
    the store dereferences it: [BindPFlag] for the first flag,
    [SetEnvPrefix], [AutomaticEnv] and [SetConfigFile]; [VisitAll] on an
    empty flag set visits nothing.  A nil flag set panics in
    [BindPFlags], before anything else is done. *)
Definition Init (w : World) (vl : Viperlet) (flagset : option FlagSet) : InitResult :=
  match viper vl with
  | None =>
      match flagset with
      | None => mkInitResult vl None Panicked
      | Some [] =>
          if bindEnv vl || negb (String.eqb (configFile vl) "")
          then mkInitResult vl (Some []) Panicked
          else mkInitResult vl (Some []) (Returned None)
      | Some fs => mkInitResult vl (Some fs) Panicked
      end
  | Some st0 =>
      match flagset with
      | None => mkInitResult vl None Panicked       (* flags.VisitAll reads f.formal *)
      | Some fs =>
          let st1 := BindPFlags st0 fs in
          let st2 := bind_env_step vl st1 in
          let (st3, cfg_err) := config_step (w_files w) vl st2 in
          let vl' := set_viper vl st3 in
          match cfg_err with
          | Some e => mkInitResult vl' (Some fs) (Returned (Some e))
          | None => mkInitResult vl' (Some (write_back st3 (w_env w) fs)) (Returned None)
          end
      end
  end.

End SimpleviperV0.

(** Whether the file system reports a path as missing. *)
Definition file_absent (s : FileState) : bool :=
  match s with
  | FileAbsent => true
  | _ => false
  end.

(* ------------------------------------------------------------------ *)
(** ** Predicates on a flag set used by the properties *)



(* ------------------------------------------------------------------ *)
(** ** The repository's example, [ExampleViperlet_Init] *)

Module Example_Init.

Definition parsed : FlagSet :=
  [ mkFlag "example1" "from command line" "" true;
    mkFlag "example2" "" "" false;
    mkFlag "example3" "" "" false;
    mkFlag "example4" "default will be overridden" "default will be overridden" false;
    mkFlag "example5" "from default value" "from default value" false;
    mkFlag "example6" "will override config file" "" true ].

Definition env : Env :=
  [ ("EXAMPLE1", "flag will take precedence");
    ("EXAMPLE2", "from env var as flag is not set");
    ("EXAMPLE3", "env var overrides config file") ].

Definition files (p : string) : FileState :=
  if String.eqb p "example.yml" then
    FileContents [ ("example3", "from config file (should be overridden)");
                   ("example4", "from config file");
                   ("example6", "from config file (should be overridden)") ]
  else FileAbsent.

Definition world : World := mkWorld env files.

Definition values (r : InitResult) : option (list string) :=
  option_map (map f_value) (r_flagset r).

End Example_Init.

(* ------------------------------------------------------------------ *)
(** ** Concrete inputs: an application with prefix [APP] *)

Module Scenarios.

Definition files (p : string) : FileState :=
  if String.eqb p "app.yml" then
    FileContents [ ("host", "file-host"); ("port", "9090") ]
  else if String.eqb p "bad.yml" then FileUnparsable "yaml: line 1: did not find expected key"
  else FileAbsent.

Definition env : Env := [ ("APP_HOST", "env-host"); ("APP_PORT", "8080"); ("APP_MODE", "") ].

Definition world : World := mkWorld env files.

(** Parsed with [--host cli-host]; sorted by name as [VisitAll] visits. *)
Definition flags : FlagSet :=
  [ mkFlag "host" "cli-host" "" true;
    mkFlag "mode" "" "" false;
    mkFlag "port" "" "" false;
    mkFlag "timeout" "30s" "30s" false ].

Definition app : Viperlet := New [WithEnvPrefix "APP"; WithConfig "app.yml"].

(** A store given through [WithViper], with explicit [Set] overrides. *)
Definition preset : Viper :=
  mkViper [ ("host", "set-host"); ("port", "7070") ] [] false "" None false [] "" "" [] [] [].

Definition app_preset : Viperlet :=
  New [WithViper (Some preset); WithEnvPrefix "APP"; WithConfig "app.yml"].



Definition flagset_after (r : InitResult) : FlagSet :=
  match r_flagset r with
  | Some fs => fs
  | None => []
  end.

Definition values (r : InitResult) : option (list string) :=
  option_map (map f_value) (r_flagset r).

End Scenarios.

(* ================================================================== *)
(** * Properties *)

Example example_Init_output :
  Example_Init.values
    (Init Example_Init.world (New [WithEnv; WithConfig "example.yml"])
       (Some Example_Init.parsed))
  = Some ["from command line"; "from env var as flag is not set";
          "env var overrides config file"; "from config file";
          "from default value"; "will override config file"].
Proof. reflexivity. Qed.

(** ** The flag set *)

Lemma lookup_flag_map_other (fs : FlagSet) (m n s : string) :
  m <> n ->
  lookup_flag (map (fun f => if String.eqb (f_name f) m
                             then mkFlag (f_name f) s (f_default f) true else f) fs) n
  = lookup_flag fs n.
Proof.
  intros Hmn. induction fs as [|f fs IH]; simpl; [reflexivity|].
  destruct (String.eqb (f_name f) m) eqn:Em; simpl.
  - apply String.eqb_eq in Em. subst m.
    destruct (String.eqb (f_name f) n) eqn:En.
    + apply String.eqb_eq in En. congruence.
    + exact IH.
  - destruct (String.eqb (f_name f) n); [reflexivity | exact IH].
Qed.

Lemma lookup_flag_map_same (fs : FlagSet) (n s : string) :
  lookup_flag (map (fun f => if String.eqb (f_name f) n
                             then mkFlag (f_name f) s (f_default f) true else f) fs) n
  = option_map (fun f => mkFlag (f_name f) s (f_default f) true) (lookup_flag fs n).
Proof.
  induction fs as [|f fs IH]; simpl; [reflexivity|].
  destruct (String.eqb (f_name f) n) eqn:En; simpl.
  - rewrite En. reflexivity.
  - rewrite En. exact IH.
Qed.

Lemma FlagSet_Set_other (fs fs' : FlagSet) (m n s : string) :
  m <> n -> FlagSet_Set fs m s = Some fs' -> lookup_flag fs' n = lookup_flag fs n.
Proof.
  unfold FlagSet_Set. intros Hmn H.
  destruct (lookup_flag fs m); [|discriminate].
  injection H as <-. apply lookup_flag_map_other; exact Hmn.
Qed.

Lemma FlagSet_Set_same (fs fs' : FlagSet) (n s : string) :
  FlagSet_Set fs n s = Some fs' ->
  lookup_flag fs' n = option_map (fun f => mkFlag (f_name f) s (f_default f) true)
                                 (lookup_flag fs n).
Proof.
  unfold FlagSet_Set. intros H.
  destruct (lookup_flag fs n) eqn:L; [|discriminate].
  injection H as <-. rewrite lookup_flag_map_same, L. reflexivity.
Qed.

(** ** Lookup in the store depends on the flag set only through the
    bound flag of the key *)

Lemma find_pflag_ext (st : Viper) (env : Env) (fs1 fs2 : FlagSet) (k : string) (b : bool) :
  pflag_of st fs1 k = pflag_of st fs2 k ->
  find st env fs1 k b = find st env fs2 k b.
Proof.
  intros H. unfold find, pflag_layer, flag_default_layer. rewrite H. reflexivity.
Qed.

(** The guard of the write-back closure. *)
Definition guard (st : Viper) (env : Env) (fs : FlagSet) (name : string) : bool :=
  IsSet st env fs name && negb (String.eqb (GetString st env fs name) "").

Lemma guard_pflag_ext (st : Viper) (env : Env) (fs1 fs2 : FlagSet) (name : string) :
  pflag_of st fs1 (ToLower name) = pflag_of st fs2 (ToLower name) ->
  guard st env fs1 name = guard st env fs2 name.
Proof.
  intros H. unfold guard, IsSet, GetString.
  rewrite (find_pflag_ext st env fs1 fs2 _ false H), (find_pflag_ext st env fs1 fs2 _ true H).
  reflexivity.
Qed.

Lemma write_back_one_guard_false (st : Viper) (env : Env) (fs : FlagSet) (m : string) :
  guard st env fs m = false -> write_back_one st env fs m = fs.
Proof.
  unfold write_back_one. fold (guard st env fs m). intros ->. reflexivity.
Qed.

Lemma write_back_one_other (st : Viper) (env : Env) (fs : FlagSet) (m n : string) :
  m <> n -> lookup_flag (write_back_one st env fs m) n = lookup_flag fs n.
Proof.
  intros Hmn. unfold write_back_one.
  destruct (_ && _); [|reflexivity].
  destruct (FlagSet_Set fs m _) eqn:E; [|reflexivity].
  exact (FlagSet_Set_other _ _ _ _ _ Hmn E).
Qed.

Lemma write_back_one_same (st : Viper) (env : Env) (fs : FlagSet) (n : string) :
  lookup_flag (write_back_one st env fs n) n =
  if guard st env fs n then
    option_map (fun f => mkFlag (f_name f) (GetString st env fs n) (f_default f) true)
               (lookup_flag fs n)
  else lookup_flag fs n.
Proof.
  unfold write_back_one. fold (guard st env fs n).
  destruct (guard st env fs n); [|reflexivity].
  destruct (FlagSet_Set fs n _) eqn:E.
  - exact (FlagSet_Set_same _ _ _ _ E).
  - unfold FlagSet_Set in E. destruct (lookup_flag fs n); [discriminate|reflexivity].
Qed.

Lemma guard_lower (st : Viper) (env : Env) (fs : FlagSet) (m n : string) :
  ToLower m = ToLower n -> guard st env fs m = guard st env fs n.
Proof. intros H. unfold guard, IsSet, GetString. rewrite H. reflexivity. Qed.

Lemma names_distinct_cons (x : string) (l : list string) :
  names_distinct (x :: l) = true -> ~ In x l /\ names_distinct l = true.
Proof.
  simpl. intros H. apply andb_prop in H as [H1 H2]. split; [|exact H2].
  apply negb_true_iff in H1. intros Hin.
  assert (existsb (String.eqb x) l = true) as Hc
    by (apply existsb_exists; exists x; split; [exact Hin | apply String.eqb_refl]).
  congruence.
Qed.

(** ** The write-back loop *)

Lemma visit_all_notin (st : Viper) (env : Env) (L : list string) (fs : FlagSet) (n : string) :
  ~ In n L -> lookup_flag (visit_all st env L fs) n = lookup_flag fs n.
Proof.
  revert fs. induction L as [|m L IH]; intros fs Hn; simpl; [reflexivity|].
  rewrite IH by (intros H; apply Hn; right; exact H).
  apply write_back_one_other. intros ->. apply Hn. left. reflexivity.
Qed.

(** A flag that is the bound flag of its own key ends the loop as its own
    visit leaves it: the visits of the other flags do not touch it nor
    change what the store reads for its key. *)
Lemma visit_all_own (st : Viper) (env : Env) (L : list string) (fs : FlagSet) (n : string) :
  names_distinct L = true -> In n L ->
  assoc (ToLower n) (v_pflags st) = Some n ->
  lookup_flag (visit_all st env L fs) n = lookup_flag (write_back_one st env fs n) n.
Proof.
  intros Hd Hin Hb. revert fs.
  induction L as [|m L IH]; intros fs; [destruct Hin|].
  apply names_distinct_cons in Hd as [Hm Hd]. simpl.
  destruct (string_dec m n) as [->|Hmn].
  - apply visit_all_notin. exact Hm.
  - destruct Hin as [Hin|Hin]; [congruence|].
    rewrite (IH Hd Hin).
    assert (Hl : lookup_flag (write_back_one st env fs m) n = lookup_flag fs n)
      by (apply write_back_one_other; exact Hmn).
    assert (Hp : pflag_of st (write_back_one st env fs m) (ToLower n) =
                 pflag_of st fs (ToLower n))
      by (unfold pflag_of; rewrite Hb; exact Hl).
    rewrite !write_back_one_same.
    rewrite (guard_pflag_ext st env _ fs n Hp).
    unfold GetString. rewrite (find_pflag_ext st env _ fs _ true Hp), Hl.
    reflexivity.
Qed.

(** A flag whose key fails the guard (unset, or resolved to [""]) is left
    as it is by the whole loop, whatever other flags share its key up to
    case: the bound flag of the key is only written when the guard holds. *)
Lemma visit_all_guard_false (st : Viper) (env : Env) (L : list string) (fs : FlagSet) (n : string) :
  (forall E, assoc (ToLower n) (v_pflags st) = Some E -> ToLower E = ToLower n) ->
  guard st env fs n = false ->
  lookup_flag (visit_all st env L fs) n = lookup_flag fs n.
Proof.
  intros HE Hg.
  assert (Hgen : forall fs',
             pflag_of st fs' (ToLower n) = pflag_of st fs (ToLower n) ->
             lookup_flag fs' n = lookup_flag fs n ->
             lookup_flag (visit_all st env L fs') n = lookup_flag fs n).
  { induction L as [|m L IH]; intros fs' Hp Hl; simpl; [exact Hl|].
    destruct (string_dec (ToLower m) (ToLower n)) as [Hk|Hk].
    - rewrite write_back_one_guard_false.
      + apply IH; assumption.
      + rewrite (guard_lower st env fs' m n Hk).
        rewrite (guard_pflag_ext st env fs' fs n Hp). exact Hg.
    - assert (Hmn : m <> n) by (intros ->; apply Hk; reflexivity).
      apply IH.
      + unfold pflag_of in *. destruct (assoc (ToLower n) (v_pflags st)) as [E|] eqn:A.
        * rewrite write_back_one_other; [exact Hp|].
          intros ->. apply Hk. apply HE. reflexivity.
        * reflexivity.
      + rewrite write_back_one_other by exact Hmn. exact Hl. }
  apply Hgen; reflexivity.
Qed.

(** ** Binding the flag set *)

Lemma fold_prepend {A B} (g : A -> B) (l : list A) (acc : list B) :
  fold_left (fun acc x => g x :: acc) l acc = rev (map g l) ++ acc.
Proof.
  revert acc. induction l as [|x l IH]; intros acc; simpl; [reflexivity|].
  rewrite IH, <- app_assoc. reflexivity.
Qed.

Lemma assoc_In {A} (k : string) (x : A) (l : list (string * A)) :
  In (k, x) l -> exists y, assoc k l = Some y /\ In (k, y) l.
Proof.
  induction l as [|[k' a] l IH]; simpl; [intros []|].
  intros [H|H].
  - injection H as -> ->. rewrite String.eqb_refl. exists x. auto.
  - destruct (String.eqb k k') eqn:E.
    + apply String.eqb_eq in E. subst. exists a. auto.
    + destruct (IH H) as [y [Hy Hiny]]. exists y. auto.
Qed.

Lemma assoc_app_some {A} (k : string) (y : A) (l acc : list (string * A)) :
  assoc k l = Some y -> assoc k (l ++ acc) = Some y.
Proof.
  induction l as [|[k' a] l IH]; simpl; [discriminate|].
  destruct (String.eqb k k'); auto.
Qed.

(** After [BindPFlags fs], the key of every flag of [fs] is bound to a
    flag of [fs] with the same lower-cased name. *)
Lemma BindPFlags_entry (st : Viper) (fs : FlagSet) (n : string) :
  In n (flag_names fs) ->
  exists E, assoc (ToLower n) (v_pflags (BindPFlags st fs)) = Some E /\
            ToLower E = ToLower n /\ In E (flag_names fs).
Proof.
  intros Hin. unfold BindPFlags. simpl.
  rewrite (fold_prepend (fun f => (ToLower (f_name f), f_name f))).
  assert (Hx : In (ToLower n, n) (rev (map (fun f => (ToLower (f_name f), f_name f)) fs))).
  { apply -> in_rev. unfold flag_names in Hin.
    rewrite in_map_iff in Hin. destruct Hin as [f [<- Hf]].
    apply in_map_iff. exists f. split; [reflexivity|]. exact Hf. }
  destruct (assoc_In _ _ _ Hx) as [E [HE HinE]].
  exists E. split; [apply assoc_app_some; exact HE|].
  apply in_rev in HinE. apply in_map_iff in HinE. destruct HinE as [f [Hf Hinf]].
  injection Hf as Hk HE'. split; [congruence|].
  unfold flag_names. apply in_map_iff. exists f. auto.
Qed.

Lemma lookup_flag_some (fs : FlagSet) (n : string) (f : Flag) :
  lookup_flag fs n = Some f -> In f fs /\ f_name f = n.
Proof.
  induction fs as [|g fs IH]; simpl; [discriminate|].
  destruct (String.eqb (f_name g) n) eqn:E.
  - intros H. injection H as <-. apply String.eqb_eq in E. auto.
  - intros H. destruct (IH H). auto.
Qed.

Lemma lookup_flag_In_names (fs : FlagSet) (n : string) (f : Flag) :
  lookup_flag fs n = Some f -> In n (flag_names fs).
Proof.
  intros H. apply lookup_flag_some in H as [Hin Hn].
  unfold flag_names. apply in_map_iff. exists f. auto.
Qed.

(** ** The steps of [Init] before the write-back *)

Lemma bind_env_step_shape (vl : Viperlet) (st : Viper) :
  v_override (bind_env_step vl st) = v_override st /\
  v_pflags (bind_env_step vl st) = v_pflags st /\
  (bindEnv vl = true -> v_automaticEnvApplied (bind_env_step vl st) = true).
Proof.
  unfold bind_env_step. destruct (bindEnv vl); [|repeat split; discriminate].
  assert (Hpre : v_override (if String.eqb (envPrefix vl) "" then st
                             else SetEnvPrefix st (envPrefix vl)) = v_override st /\
                 v_pflags (if String.eqb (envPrefix vl) "" then st
                           else SetEnvPrefix st (envPrefix vl)) = v_pflags st).
  { unfold SetEnvPrefix. destruct (String.eqb (envPrefix vl) ""); auto. }
  destruct (if String.eqb (envPrefix vl) "" then st else SetEnvPrefix st (envPrefix vl))
    as [o p a e r ae en cf ct c kv d].
  destruct Hpre as [Ho Hp]. simpl in Ho, Hp.
  destruct (envKeyReplacer vl); simpl; auto.
Qed.

(** The configuration step only touches the config file name and the
    config layer. *)
Lemma config_step_shape (files : string -> FileState) (vl : Viperlet) (st : Viper) :
  exists cf cfg,
    fst (config_step files vl st) =
    mkViper (v_override st) (v_pflags st) (v_automaticEnvApplied st) (v_envPrefix st)
      (v_envKeyReplacer st) (v_allowEmptyEnv st) (v_env st) cf (v_configType st) cfg
      (v_kvstore st) (v_defaults st).
Proof.
  unfold config_step.
  destruct (String.eqb (configFile vl) "").
  - exists (v_configFile st), (v_config st). destruct st; reflexivity.
  - set (st' := SetConfigFile st (configFile vl)).
    assert (Hs : exists cf, st' = mkViper (v_override st) (v_pflags st) (v_automaticEnvApplied st)
                   (v_envPrefix st) (v_envKeyReplacer st) (v_allowEmptyEnv st) (v_env st) cf
                   (v_configType st) (v_config st) (v_kvstore st) (v_defaults st)).
    { unfold st', SetConfigFile. destruct (String.eqb (configFile vl) "").
      - exists (v_configFile st). destruct st; reflexivity.
      - eexists; reflexivity. }
    destruct Hs as [cf Hs].
    unfold ReadInConfig.
    rewrite Hs. unfold getConfigType. cbn [v_configType v_configFile].
    destruct (is_supported _); [destruct (files cf) as [| m | m | kv] eqn:F|]; simpl;
      repeat match goal with |- context [if ?b then _ else _] => destruct b end;
      simpl; eexists; eexists; reflexivity.
Qed.

(** [Init] on a non-nil flag set: the store it leaves in the receiver has
    the flag set bound, and either the configuration step failed and the
    flag set is untouched, or the write-back ran against that store. *)
Lemma Init_Some_cases (w : World) (vl : Viperlet) (fs : FlagSet) :
  let r := Init w vl (Some fs) in
  let st := Viperlet_Viper (r_viperlet r) in
  v_pflags st = v_pflags (BindPFlags (Viperlet_Viper vl) fs) /\
  v_override st = v_override (Viperlet_Viper vl) /\
  (bindEnv vl = true -> v_automaticEnvApplied st = true) /\
  ((r_flagset r = Some fs /\ exists e, r_outcome r = Returned (Some e)) \/
   (r_flagset r = Some (write_back st (w_env w) fs) /\ r_outcome r = Returned None)).
Proof.
  simpl. unfold Init.
  set (st2 := bind_env_step vl (BindPFlags (Viperlet_Viper vl) fs)).
  destruct (bind_env_step_shape vl (BindPFlags (Viperlet_Viper vl) fs)) as [Ho [Hp Ha]].
  fold st2 in Ho, Hp, Ha.
  destruct (config_step_shape (w_files w) vl st2) as [cf [cfg Hc]].
  destruct (config_step (w_files w) vl st2) as [st3 err] eqn:C. simpl in Hc. subst st3.
  destruct err as [e|]; simpl.
  - rewrite Hp, Ho. repeat split; auto. left. split; [reflexivity|]. exists e. reflexivity.
  - rewrite Hp, Ho. repeat split; auto.
Qed.



Lemma eqb_empty_false (s : string) : String.eqb s "" = false -> s <> "".
Proof. intros H E. subst. discriminate H. Qed.

(** The key of a flag of the flag set is bound, after [Init], to a flag of
    that set with the same lower-cased name. *)
Lemma Init_entry (w : World) (vl : Viperlet) (fs : FlagSet) (n : string) :
  In n (flag_names fs) ->
  forall E, assoc (ToLower n) (v_pflags (Viperlet_Viper (r_viperlet (Init w vl (Some fs))))) = Some E ->
  ToLower E = ToLower n /\ In E (flag_names fs).
Proof.
  intros Hin E HE.
  destruct (Init_Some_cases w vl fs) as [Hp _]. rewrite Hp in HE.
  destruct (BindPFlags_entry (Viperlet_Viper vl) fs n Hin) as [E' [HE' [Hl Hi]]].
  rewrite HE' in HE. injection HE as <-. auto.
Qed.


(** [Init] leaves a flag as it was whenever the write-back guard fails for
    it, read on the store [Init] leaves and the flag set as parsed. *)
Lemma Init_guard_false_kept (w : World) (vl : Viperlet) (fs fs' : FlagSet) (n : string) (f : Flag) :
  lookup_flag fs n = Some f ->
  guard (Viperlet_Viper (r_viperlet (Init w vl (Some fs)))) (w_env w) fs n = false ->
  r_flagset (Init w vl (Some fs)) = Some fs' ->
  lookup_flag fs' n = Some f.
Proof.
  intros Hf Hg Hr.
  pose proof (lookup_flag_In_names _ _ _ Hf) as Hin.
  destruct (Init_Some_cases w vl fs) as [_ [_ [_ [[Hs _]|[Hs _]]]]];
    rewrite Hs in Hr; injection Hr as <-; [exact Hf|].
  unfold write_back. rewrite visit_all_guard_false; [exact Hf| |exact Hg].
  intros E HE. apply (Init_entry w vl fs n Hin E HE).
Qed.

(** ** C3: the empty-value guard *)

(** C3. For every flag whose resolved store value, read as text
    ([GetString] on the store [Init] leaves, with the flag set as parsed),
    is the empty string, the flag's value after [Init] is the one
    command-line parsing gave it. *)
Theorem Init_empty_value_never_overwrites (w : World) (vl : Viperlet) (fs fs' : FlagSet)
    (n : string) (f : Flag) :
  lookup_flag fs n = Some f ->
  GetString (Viperlet_Viper (r_viperlet (Init w vl (Some fs)))) (w_env w) fs n = "" ->
  r_flagset (Init w vl (Some fs)) = Some fs' ->
  lookup_flag fs' n = Some f.
Proof.
  intros Hf Hs. apply (Init_guard_false_kept w vl fs fs' n f Hf).
  unfold guard. rewrite Hs. apply andb_false_r.
Qed.

(** ** C7: default preservation *)



(** ** C1: the command-line value wins *)


(** ** C2: the environment value wins over the config file *)


(** ** The configuration step *)

Lemma SetConfigFile_configFile (st : Viper) (p : string) :
  p <> "" -> v_configFile (SetConfigFile st p) = p.
Proof.
  intros Hp. unfold SetConfigFile.
  destruct (String.eqb p "") eqn:E; [apply String.eqb_eq in E; contradiction|reflexivity].
Qed.

Lemma config_step_read (files : string -> FileState) (vl : Viperlet) (st : Viper) :
  configFile vl <> "" ->
  config_step files vl st =
  match ReadInConfig files (SetConfigFile st (configFile vl)) with
  | (st', None) => (st', None)
  | (st', Some err) =>
      if negb (allowMissingConfig vl) then (st', Some err)
      else if negb (is_not_found err) then (st', Some err)
      else (st', None)
  end.
Proof.
  intros Hp. unfold config_step.
  destruct (String.eqb (configFile vl) "") eqn:E; [apply String.eqb_eq in E; contradiction|].
  reflexivity.
Qed.

Lemma SetConfigFile_configType (st : Viper) (p : string) :
  v_configType (SetConfigFile st p) = v_configType st.
Proof. unfold SetConfigFile. destruct (String.eqb p ""); reflexivity. Qed.

Lemma getConfigType_SetConfigFile (st : Viper) (p : string) :
  p <> "" -> getConfigType (SetConfigFile st p) = config_type (v_configType st) p.
Proof.
  intros Hp. unfold getConfigType. rewrite SetConfigFile_configType, SetConfigFile_configFile by exact Hp.
  reflexivity.
Qed.

(** A config type viper does not support fails the step, optional or not. *)
Lemma config_step_unsupported (files : string -> FileState) (vl : Viperlet) (st : Viper) :
  configFile vl <> "" ->
  is_supported (config_type (v_configType st) (configFile vl)) = false ->
  config_step files vl st =
  (SetConfigFile st (configFile vl),
   Some (UnsupportedConfigError (config_type (v_configType st) (configFile vl)))).
Proof.
  intros Hp Hs. rewrite (config_step_read files vl st Hp). unfold ReadInConfig.
  rewrite (getConfigType_SetConfigFile st _ Hp), Hs.
  destruct (allowMissingConfig vl); reflexivity.
Qed.

Lemma config_step_absent (files : string -> FileState) (vl : Viperlet) (st : Viper) :
  configFile vl <> "" ->
  is_supported (config_type (v_configType st) (configFile vl)) = true ->
  files (configFile vl) = FileAbsent ->
  config_step files vl st =
  (SetConfigFile st (configFile vl),
   if allowMissingConfig vl then None else Some (ErrNotExist (configFile vl))).
Proof.
  intros Hp Hs Hf. rewrite (config_step_read files vl st Hp). unfold ReadInConfig.
  rewrite (getConfigType_SetConfigFile st _ Hp), Hs.
  rewrite (SetConfigFile_configFile st _ Hp), Hf.
  destruct (allowMissingConfig vl); reflexivity.
Qed.

(** [Init] once the configuration step has returned an error. *)
Lemma Init_config_error (w : World) (vl : Viperlet) (flagset : option FlagSet) (e : Error) :
  snd (config_step (w_files w) vl
         (bind_env_step vl (match flagset with
                            | Some fs => BindPFlags (Viperlet_Viper vl) fs
                            | None => Viperlet_Viper vl
                            end))) = Some e ->
  r_outcome (Init w vl flagset) = Returned (Some e) /\ r_flagset (Init w vl flagset) = flagset.
Proof.
  unfold Init. destruct (config_step _ _ _) as [st3 err]. simpl. intros ->. auto.
Qed.

(** The config type the configuration step checks is the one of the
    store the Viperlet holds: binding flags and the environment leave it. *)
Lemma bind_env_step_configType (vl : Viperlet) (st : Viper) :
  v_configType (bind_env_step vl st) = v_configType st.
Proof.
  unfold bind_env_step. destruct (bindEnv vl); [|reflexivity].
  unfold SetEnvPrefix.
  destruct (String.eqb (envPrefix vl) ""), (envKeyReplacer vl); reflexivity.
Qed.

Lemma Init_store_configType (vl : Viperlet) (flagset : option FlagSet) :
  v_configType (bind_env_step vl (match flagset with
                                  | Some fs => BindPFlags (Viperlet_Viper vl) fs
                                  | None => Viperlet_Viper vl
                                  end)) = v_configType (Viperlet_Viper vl).
Proof.
  rewrite bind_env_step_configType. destruct flagset; reflexivity.
Qed.

(** ** C4: a required configuration file that is missing *)

(** C4. For a Viperlet whose configuration file path is set, not optional,
    and names a file that does not exist, [Init] returns a non-nil error
    (the not-exist error for that path, or, when the config type is not
    one viper supports, the unsupported-config-type error raised before
    the file is looked at) and leaves the flag set exactly as it was
    given. *)
Theorem Init_required_config_missing (w : World) (vl : Viperlet) (flagset : option FlagSet) :
  String.eqb (configFile vl) "" = false ->
  allowMissingConfig vl = false ->
  w_files w (configFile vl) = FileAbsent ->
  (exists e, r_outcome (Init w vl flagset) = Returned (Some e) /\
             (e = ErrNotExist (configFile vl) \/
              e = UnsupportedConfigError
                    (config_type (v_configType (Viperlet_Viper vl)) (configFile vl)))) /\
  r_flagset (Init w vl flagset) = flagset.
Proof.
  intros Hp Ha Hf. apply eqb_empty_false in Hp.
  destruct (is_supported (config_type (v_configType (Viperlet_Viper vl)) (configFile vl))) eqn:S.
  - rewrite <- (Init_store_configType vl flagset) in S.
    destruct (Init_config_error w vl flagset (ErrNotExist (configFile vl))) as [Ho Hfs].
    { rewrite (config_step_absent _ _ _ Hp S Hf), Ha. reflexivity. }
    split; [|exact Hfs]. eexists. split; [exact Ho|]. left; reflexivity.
  - rewrite <- (Init_store_configType vl flagset) in S.
    destruct (Init_config_error w vl flagset
                (UnsupportedConfigError
                   (config_type (v_configType (Viperlet_Viper vl)) (configFile vl)))) as [Ho Hfs].
    { rewrite (config_step_unsupported _ _ _ Hp S), Init_store_configType. reflexivity. }
    split; [|exact Hfs]. eexists. split; [exact Ho|]. right; reflexivity.
Qed.

(** ** C6: other load failures *)

(** C6. For a Viperlet whose configuration file path is set, if the file
    cannot be read or cannot be parsed, [Init] returns that error (not a
    not-found error), whether the file is optional or required, and leaves
    the flag set exactly as it was given. *)
Theorem Init_config_load_error (w : World) (vl : Viperlet) (flagset : option FlagSet) (m : string) :
  String.eqb (configFile vl) "" = false ->
  w_files w (configFile vl) = FileUnreadable m \/ w_files w (configFile vl) = FileUnparsable m ->
  exists e, is_not_found e = false /\
            r_outcome (Init w vl flagset) = Returned (Some e) /\
            r_flagset (Init w vl flagset) = flagset.
Proof.
  intros Hp Hf. apply eqb_empty_false in Hp.
  set (st := bind_env_step vl (match flagset with
                               | Some fs => BindPFlags (Viperlet_Viper vl) fs
                               | None => Viperlet_Viper vl
                               end)).
  destruct (is_supported (config_type (v_configType st) (configFile vl))) eqn:S.
  - destruct Hf as [Hf|Hf]; [exists (ErrIO m) | exists (ConfigParseError m)];
      (split; [reflexivity|]); apply Init_config_error; fold st;
      rewrite (config_step_read _ _ _ Hp); unfold ReadInConfig;
      rewrite (getConfigType_SetConfigFile _ _ Hp), S;
      rewrite SetConfigFile_configFile, Hf by exact Hp;
      destruct (allowMissingConfig vl); reflexivity.
  - exists (UnsupportedConfigError (config_type (v_configType st) (configFile vl))).
    split; [reflexivity|]. apply Init_config_error. fold st.
    rewrite (config_step_unsupported _ _ _ Hp S). reflexivity.
Qed.

(** ** C5: an optional configuration file that is missing *)

Lemma find_SetConfigFile (st : Viper) (p : string) (env : Env) (fs : FlagSet) (k : string) (b : bool) :
  find (SetConfigFile st p) env fs k b = find st env fs k b.
Proof.
  destruct st. unfold SetConfigFile. destruct (String.eqb p ""); reflexivity.
Qed.

Lemma visit_all_find_ext (st1 st2 : Viper) (env : Env) (L : list string) (fs : FlagSet) :
  (forall fs k b, find st1 env fs k b = find st2 env fs k b) ->
  visit_all st1 env L fs = visit_all st2 env L fs.
Proof.
  intros H. revert fs. induction L as [|m L IH]; intros fs; simpl; [reflexivity|].
  replace (write_back_one st1 env fs m) with (write_back_one st2 env fs m); [apply IH|].
  unfold write_back_one, IsSet, GetString. rewrite !H. reflexivity.
Qed.

(** C5. For a Viperlet whose configuration file path is optional, has a
    config type viper supports (the store's [SetConfigType], else the
    path's extension), and names a file that does not exist, [Init] ends
    exactly as it ends for the same Viperlet without a configuration file
    path (same flag set afterwards, same outcome), and on a flag set it
    returns no error. *)
Theorem Init_optional_config_missing (w : World) (vl : Viperlet) (flagset : option FlagSet) :
  let vl0 := mkViperlet (viper vl) (bindEnv vl) (envPrefix vl) (envKeyReplacer vl) ""
                        (allowMissingConfig vl) in
  String.eqb (configFile vl) "" = false ->
  allowMissingConfig vl = true ->
  is_supported (config_type (v_configType (Viperlet_Viper vl)) (configFile vl)) = true ->
  w_files w (configFile vl) = FileAbsent ->
  r_flagset (Init w vl flagset) = r_flagset (Init w vl0 flagset) /\
  r_outcome (Init w vl flagset) = r_outcome (Init w vl0 flagset) /\
  (forall fs, flagset = Some fs -> r_outcome (Init w vl flagset) = Returned None).
Proof.
  intros vl0 Hp Ha Hs Hf. apply eqb_empty_false in Hp.
  rewrite <- (Init_store_configType vl flagset) in Hs. unfold Init.
  assert (Hv : Viperlet_Viper vl0 = Viperlet_Viper vl) by reflexivity.
  assert (Hb : forall st, bind_env_step vl0 st = bind_env_step vl st) by reflexivity.
  rewrite Hv, Hb.
  rewrite (config_step_absent _ _ _ Hp Hs Hf), Ha.
  assert (H0 : forall st, config_step (w_files w) vl0 st = (st, None)) by reflexivity.
  rewrite H0.
  destruct flagset as [fs|]; simpl; [|repeat split; discriminate].
  split; [|split; [reflexivity | intros; reflexivity]].
  unfold write_back. f_equal. apply visit_all_find_ext.
  intros. apply find_SetConfigFile.
Qed.

(** ** Options and [New] *)

(** The options that write the config file fields. *)
Definition is_config_opt (o : Option) : bool :=
  match o with
  | WithConfig _ | WithOptionalConfig _ => true
  | _ => false
  end.

Lemma New_app (l1 l2 : list Option) :
  New (l1 ++ l2) = fold_left (fun v o => apply_opt o v) l2 (New l1).
Proof. unfold New. apply fold_left_app. Qed.

Lemma fold_non_config (l : list Option) :
  forallb (fun o => negb (is_config_opt o)) l = true ->
  forall v,
  configFile (fold_left (fun v o => apply_opt o v) l v) = configFile v /\
  allowMissingConfig (fold_left (fun v o => apply_opt o v) l v) = allowMissingConfig v.
Proof.
  induction l as [|o l IH]; intros H v; simpl; [auto|].
  apply andb_prop in H as [Ho Hl].
  destruct (IH Hl (apply_opt o v)) as [-> ->].
  destruct o; simpl in *; try discriminate; auto.
Qed.

(** ** C8: options apply in order, the last write wins *)

(** C8. [New] applies its options in the order given: the options after
    a prefix act on the Viperlet the prefix builds; and of a required and
    an optional config option, whatever comes between them and with no
    config option after the later one, the config path and the
    missing-file tolerance are those of the later one. *)
Theorem New_last_option_wins (pre mid post : list Option) (a b : string) :
  forallb (fun o => negb (is_config_opt o)) post = true ->
  (forall o, New (pre ++ [o]) = apply_opt o (New pre)) /\
  (configFile (New (pre ++ WithConfig a :: mid ++ WithOptionalConfig b :: post)) = b /\
   allowMissingConfig (New (pre ++ WithConfig a :: mid ++ WithOptionalConfig b :: post)) = true) /\
  (configFile (New (pre ++ WithOptionalConfig b :: mid ++ WithConfig a :: post)) = a /\
   allowMissingConfig (New (pre ++ WithOptionalConfig b :: mid ++ WithConfig a :: post)) = false).
Proof.
  intros Hp.
  split; [intros o; rewrite New_app; reflexivity|].
  pose proof (fold_non_config post Hp) as Hpost.
  split; rewrite New_app; simpl; rewrite fold_left_app; simpl;
    rewrite (proj1 (Hpost _)), (proj2 (Hpost _)); simpl; auto.
Qed.

(** ** C9: the environment options enable environment binding *)

Lemma fold_bindEnv_stays (l : list Option) (v : Viperlet) :
  bindEnv v = true -> bindEnv (fold_left (fun v o => apply_opt o v) l v) = true.
Proof.
  revert v. induction l as [|o l IH]; intros v H; simpl; [exact H|].
  apply IH. destruct o; simpl; auto.
Qed.

Lemma fold_env_invariant (l : list Option) (v : Viperlet) :
  bindEnv v = true \/ (envPrefix v = "" /\ envKeyReplacer v = None) ->
  let v' := fold_left (fun v o => apply_opt o v) l v in
  bindEnv v' = true \/ (envPrefix v' = "" /\ envKeyReplacer v' = None).
Proof.
  revert v. induction l as [|o l IH]; intros v H; simpl; [exact H|].
  apply IH. destruct o; simpl; auto.
Qed.

Lemma fold_env_option_In (l : list Option) (v : Viperlet) (o : Option) :
  In o l -> (forall v, bindEnv (apply_opt o v) = true) ->
  bindEnv (fold_left (fun v o => apply_opt o v) l v) = true.
Proof.
  revert v. induction l as [|o' l IH]; intros v Hin Ho; simpl; [destruct Hin|].
  destruct Hin as [<-|Hin].
  - apply fold_bindEnv_stays, Ho.
  - apply IH; assumption.
Qed.

(** C9. For every Viperlet built by [New], if a [WithEnvPrefix] or a
    [WithEnvKeyReplacer] option was passed, or the Viperlet holds a
    non-empty prefix or a key replacer, environment binding is enabled. *)
Theorem New_env_options_enable_bindEnv (opts : list Option) :
  (exists p, In (WithEnvPrefix p) opts) \/ (exists r, In (WithEnvKeyReplacer r) opts) \/
  envPrefix (New opts) <> "" \/ envKeyReplacer (New opts) <> None ->
  bindEnv (New opts) = true.
Proof.
  intros [[p Hp]|[[r Hr]|H]].
  - apply (fold_env_option_In _ _ _ Hp). reflexivity.
  - apply (fold_env_option_In _ _ _ Hr). reflexivity.
  - destruct (fold_env_invariant opts new_Viperlet (or_intror (conj eq_refl eq_refl)))
      as [Hb|[Hp Hr]]; [exact Hb|].
    unfold New in H. destruct H as [H|H]; contradiction.
Qed.

(** ** C10: [Init] on a nil flag set *)

(** C10 (as amended). [Init] with a nil flag set never returns without an
    error: it skips the binding, and it panics (nil flag set dereferenced
    by [VisitAll]) exactly when the configuration step does not fail; when
    the configuration step fails it returns that error first. *)
Theorem Init_nil_flagset (w : World) (vl : Viperlet) :
  r_outcome (Init w vl None) <> Returned None /\
  (r_outcome (Init w vl None) = Panicked <->
   snd (config_step (w_files w) vl (bind_env_step vl (Viperlet_Viper vl))) = None).
Proof.
  unfold Init. destruct (config_step _ _ _) as [st3 [e|]]; simpl.
  - split; [discriminate|]. split; discriminate.
  - split; [discriminate|]. split; reflexivity.
Qed.

(* ------------------------------------------------------------------ *)
(** ** What the write-back can do to a flag set *)

Lemma FlagSet_Set_names (fs fs' : FlagSet) (n s : string) :
  FlagSet_Set fs n s = Some fs' ->
  map f_name fs' = map f_name fs /\ map f_default fs' = map f_default fs.
Proof.
  unfold FlagSet_Set. destruct (lookup_flag fs n) as [g|]; [|discriminate].
  intros H. injection H as <-. rewrite !map_map.
  split; apply map_ext; intros f; destruct (String.eqb (f_name f) n); reflexivity.
Qed.

Lemma write_back_one_names (st : Viper) (env : Env) (fs : FlagSet) (m : string) :
  map f_name (write_back_one st env fs m) = map f_name fs /\
  map f_default (write_back_one st env fs m) = map f_default fs.
Proof.
  unfold write_back_one. destruct (_ && _); [|auto].
  destruct (FlagSet_Set fs m _) eqn:E; [|auto].
  exact (FlagSet_Set_names _ _ _ _ E).
Qed.

Lemma visit_all_names (st : Viper) (env : Env) (L : list string) (fs : FlagSet) :
  map f_name (visit_all st env L fs) = map f_name fs /\
  map f_default (visit_all st env L fs) = map f_default fs.
Proof.
  revert fs. induction L as [|m L IH]; intros fs; simpl; [auto|].
  destruct (IH (write_back_one st env fs m)) as [-> ->].
  apply write_back_one_names.
Qed.

(** How one flag may differ after the write-back: not at all, or it holds
    a non-empty value and is marked [Changed], name and default kept. *)
Definition flag_evolves (a b : option Flag) : Prop :=
  b = a \/
  exists f s, a = Some f /\ b = Some (mkFlag (f_name f) s (f_default f) true) /\
              String.eqb s "" = false.

Lemma flag_evolves_trans (a b c : option Flag) :
  flag_evolves a b -> flag_evolves b c -> flag_evolves a c.
Proof.
  unfold flag_evolves. intros H1 H2.
  destruct H2 as [->|[g [t [Hb [-> Ht]]]]]; [exact H1|].
  destruct H1 as [->|[f [s [Ha [Hb' Hs]]]]].
  - right. exists g, t. auto.
  - right. rewrite Hb' in Hb. injection Hb as <-. exists f, t. auto.
Qed.

Lemma write_back_one_evolves (st : Viper) (env : Env) (fs : FlagSet) (m n : string) :
  flag_evolves (lookup_flag fs n) (lookup_flag (write_back_one st env fs m) n).
Proof.
  destruct (string_dec m n) as [<-|Hmn].
  - rewrite write_back_one_same. unfold guard.
    destruct (IsSet st env fs m) eqn:Hi; simpl; [|left; reflexivity].
    destruct (String.eqb (GetString st env fs m) "") eqn:Hg; simpl; [left; reflexivity|].
    destruct (lookup_flag fs m) as [f|]; simpl; [|left; reflexivity].
    right. exists f, (GetString st env fs m). auto.
  - left. apply write_back_one_other. exact Hmn.
Qed.

Lemma visit_all_evolves (st : Viper) (env : Env) (L : list string) (fs : FlagSet) (n : string) :
  flag_evolves (lookup_flag fs n) (lookup_flag (visit_all st env L fs) n).
Proof.
  revert fs. induction L as [|m L IH]; intros fs; simpl; [left; reflexivity|].
  eapply flag_evolves_trans; [apply write_back_one_evolves|apply IH].
Qed.

(** X1. [Init] keeps the flag set's shape: the same flags, by name and in
    the same order, with the same defaults. *)
Theorem Init_keeps_flag_names_defaults (w : World) (vl : Viperlet) (fs fs' : FlagSet) :
  r_flagset (Init w vl (Some fs)) = Some fs' ->
  map f_name fs' = map f_name fs /\ map f_default fs' = map f_default fs.
Proof.
  intros Hr.
  destruct (Init_Some_cases w vl fs) as [_ [_ [_ [[Hs _]|[Hs _]]]]];
    rewrite Hs in Hr; injection Hr as <-; [auto|].
  apply visit_all_names.
Qed.

(** X2. [Init] never clears a flag nor writes an empty value: after it,
    every flag (a string flag, whose [Set] keeps the text) is either
    exactly as parsed, or holds a non-empty value and is marked changed
    (name and default kept). *)
Theorem Init_flag_as_parsed_or_nonempty (w : World) (vl : Viperlet) (fs fs' : FlagSet) (n : string) :
  r_flagset (Init w vl (Some fs)) = Some fs' ->
  lookup_flag fs' n = lookup_flag fs n \/
  exists f s, lookup_flag fs n = Some f /\
              lookup_flag fs' n = Some (mkFlag (f_name f) s (f_default f) true) /\
              String.eqb s "" = false.
Proof.
  intros Hr.
  destruct (Init_Some_cases w vl fs) as [_ [_ [_ [[Hs _]|[Hs _]]]]];
    rewrite Hs in Hr; injection Hr as <-; [left; reflexivity|].
  apply visit_all_evolves.
Qed.

(* ------------------------------------------------------------------ *)
(** ** What [Init] keeps, and when it succeeds *)

Lemma bind_env_step_layers (vl : Viperlet) (st : Viper) :
  v_override (bind_env_step vl st) = v_override st /\
  v_env (bind_env_step vl st) = v_env st /\
  v_kvstore (bind_env_step vl st) = v_kvstore st /\
  v_defaults (bind_env_step vl st) = v_defaults st.
Proof.
  destruct st. unfold bind_env_step, SetEnvPrefix, SetEnvKeyReplacer, AutomaticEnv.
  destruct (bindEnv vl); [|auto].
  destruct (String.eqb (envPrefix vl) ""), (envKeyReplacer vl); simpl; auto.
Qed.

Lemma Init_store (w : World) (vl : Viperlet) (flagset : option FlagSet) :
  r_viperlet (Init w vl flagset) =
  set_viper vl (fst (config_step (w_files w) vl
                       (bind_env_step vl (match flagset with
                                          | Some fs => BindPFlags (Viperlet_Viper vl) fs
                                          | None => Viperlet_Viper vl
                                          end)))).
Proof.
  unfold Init. destruct (config_step _ _ _) as [st3 [e|]]; [reflexivity|].
  destruct flagset; reflexivity.
Qed.

(** X3. [Init] changes no option of the Viperlet; it only makes the
    Viperlet hold its store (creating one if none was given), and it keeps
    the explicit overrides, bound environment variables, key/value and
    default values that store held. *)
Theorem Init_keeps_options_and_store_layers (w : World) (vl : Viperlet) (flagset : option FlagSet) :
  let vl' := r_viperlet (Init w vl flagset) in
  let st := Viperlet_Viper vl in
  let st' := Viperlet_Viper vl' in
  viper vl' = Some st' /\
  bindEnv vl' = bindEnv vl /\ envPrefix vl' = envPrefix vl /\
  envKeyReplacer vl' = envKeyReplacer vl /\ configFile vl' = configFile vl /\
  allowMissingConfig vl' = allowMissingConfig vl /\
  v_override st' = v_override st /\ v_env st' = v_env st /\
  v_kvstore st' = v_kvstore st /\ v_defaults st' = v_defaults st.
Proof.
  simpl. rewrite Init_store.
  set (st1 := match flagset with
              | Some fs => BindPFlags (Viperlet_Viper vl) fs
              | None => Viperlet_Viper vl
              end).
  assert (H1 : v_override st1 = v_override (Viperlet_Viper vl) /\
               v_env st1 = v_env (Viperlet_Viper vl) /\
               v_kvstore st1 = v_kvstore (Viperlet_Viper vl) /\
               v_defaults st1 = v_defaults (Viperlet_Viper vl))
    by (unfold st1; destruct flagset; auto).
  destruct (bind_env_step_layers vl st1) as [E1 [E2 [E3 E4]]].
  destruct (config_step_shape (w_files w) vl (bind_env_step vl st1)) as [cf [cfg Hc]].
  rewrite Hc. simpl. rewrite E1, E2, E3, E4. destruct H1 as [-> [-> [-> ->]]].
  repeat split; reflexivity.
Qed.

(** X4. Without a configuration file path, [Init] on a flag set always
    returns a nil error (binding a flag set and the environment cannot
    fail), and it does not consult the file system: it ends the same way
    whatever the files. *)
Theorem Init_no_config_path_succeeds (w : World) (vl : Viperlet) (fs : FlagSet) :
  String.eqb (configFile vl) "" = true ->
  r_outcome (Init w vl (Some fs)) = Returned None /\
  (forall w', w_env w' = w_env w -> Init w' vl (Some fs) = Init w vl (Some fs)).
Proof.
  intros H. split.
  - unfold Init, config_step. rewrite H. reflexivity.
  - intros w' He. unfold Init, config_step. rewrite H, He. reflexivity.
Qed.

(** X5. With an optional configuration file, any error [Init] returns is
    a load error, never a not-found error. *)
Theorem Init_optional_never_not_found (w : World) (vl : Viperlet) (flagset : option FlagSet)
    (e : Error) :
  allowMissingConfig vl = true ->
  r_outcome (Init w vl flagset) = Returned (Some e) ->
  is_not_found e = false.
Proof.
  intros Ha. unfold Init.
  destruct (config_step _ _ _) as [st3 err] eqn:C.
  destruct err as [e'|]; [|destruct flagset; discriminate].
  simpl. intros H. injection H as <-.
  unfold config_step in C. destruct (String.eqb (configFile vl) ""); [discriminate|].
  destruct (ReadInConfig _ _) as [st4 [e4|]]; [|discriminate].
  rewrite Ha in C. simpl in C.
  destruct (is_not_found e4) eqn:Hn; simpl in C; [discriminate|].
  injection C as _ <-. exact Hn.
Qed.

Lemma config_step_tolerance (files : string -> FileState) (v : Viperlet) (p : string) (st : Viper) :
  file_absent (files p) = false ->
  config_step files (apply_opt (WithConfig p) v) st =
  config_step files (apply_opt (WithOptionalConfig p) v) st.
Proof.
  intros Hf. unfold config_step. simpl.
  destruct (String.eqb p "") eqn:Hp; [reflexivity|].
  apply eqb_empty_false in Hp. unfold ReadInConfig.
  rewrite (SetConfigFile_configFile st p Hp).
  destruct (is_supported _); [|reflexivity].
  destruct (files p); simpl in Hf; try discriminate; reflexivity.
Qed.

(** X6. Whether the configuration file is required ([WithConfig]) or
    optional ([WithOptionalConfig]) only matters when the file is missing:
    otherwise [Init] ends the same way (flag set, outcome and store). *)
Theorem Init_tolerance_only_for_missing (w : World) (v : Viperlet) (p : string)
    (flagset : option FlagSet) :
  file_absent (w_files w p) = false ->
  let r1 := Init w (apply_opt (WithConfig p) v) flagset in
  let r2 := Init w (apply_opt (WithOptionalConfig p) v) flagset in
  r_flagset r1 = r_flagset r2 /\ r_outcome r1 = r_outcome r2 /\
  Viperlet_Viper (r_viperlet r1) = Viperlet_Viper (r_viperlet r2).
Proof.
  intros Hf. cbv zeta. unfold Init. cbv zeta.
  change (Viperlet_Viper (apply_opt (WithConfig p) v)) with (Viperlet_Viper v).
  change (Viperlet_Viper (apply_opt (WithOptionalConfig p) v)) with (Viperlet_Viper v).
  change (bind_env_step (apply_opt (WithConfig p) v))
    with (bind_env_step (apply_opt (WithOptionalConfig p) v)).
  rewrite config_step_tolerance by exact Hf.
  destruct (config_step _ _ _) as [st3 [e|]]; [auto|].
  destruct flagset; auto.
Qed.


(* ------------------------------------------------------------------ *)
(** ** Flag names distinct up to case *)

Lemma names_distinct_map_inj (h : string -> string) (l : list string) (x y : string) :
  names_distinct (map h l) = true -> In x l -> In y l -> h x = h y -> x = y.
Proof.
  induction l as [|a l IH]; simpl; [tauto|].
  intros Hd Hx Hy Hxy. apply andb_prop in Hd as [Hn Hd].
  assert (Hout : forall z, In z l -> h z <> h a).
  { intros z Hz Heq. apply negb_true_iff in Hn.
    assert (existsb (String.eqb (h a)) (map h l) = true) as Hc.
    { apply existsb_exists. exists (h z). split; [apply in_map; exact Hz |].
      apply String.eqb_eq. symmetry. exact Heq. }
    congruence. }
  destruct Hx as [Hx|Hx], Hy as [Hy|Hy]; subst.
  - reflexivity.
  - exfalso. apply (Hout y Hy). symmetry. exact Hxy.
  - exfalso. apply (Hout x Hx). exact Hxy.
  - apply IH; assumption.
Qed.

Lemma names_distinct_map (h : string -> string) (l : list string) :
  names_distinct (map h l) = true -> names_distinct l = true.
Proof.
  induction l as [|a l IH]; simpl; [reflexivity|].
  intros Hd. apply andb_prop in Hd as [Hn Hd].
  rewrite (IH Hd), andb_true_r. apply negb_true_iff. apply negb_true_iff in Hn.
  destruct (existsb (String.eqb a) l) eqn:E; [|reflexivity].
  apply existsb_exists in E as [z [Hz Ez]]. apply String.eqb_eq in Ez. subst z.
  assert (existsb (String.eqb (h a)) (map h l) = true) as Hc
    by (apply existsb_exists; exists (h a); split; [apply in_map; exact Hz | apply String.eqb_refl]).
  congruence.
Qed.

Lemma lookup_flag_of_In (fs : FlagSet) (n : string) :
  In n (flag_names fs) -> exists f, lookup_flag fs n = Some f.
Proof.
  induction fs as [|g fs IH]; simpl; [tauto|].
  intros Hin. destruct (String.eqb (f_name g) n) eqn:E; [eauto|].
  destruct Hin as [Hin|Hin]; [|auto].
  subst n. rewrite String.eqb_refl in E. discriminate.
Qed.

Lemma BindPFlags_own (st : Viper) (fs : FlagSet) (n : string) :
  names_distinct (map ToLower (flag_names fs)) = true -> In n (flag_names fs) ->
  assoc (ToLower n) (v_pflags (BindPFlags st fs)) = Some n.
Proof.
  intros Hd Hn. destruct (BindPFlags_entry st fs n Hn) as [E [HE [HEl HEin]]].
  rewrite HE. f_equal. apply (names_distinct_map_inj ToLower (flag_names fs)); assumption.
Qed.

(* ------------------------------------------------------------------ *)
(** ** Writing back a value a flag already holds *)

Lemma map_set_absent (fs : FlagSet) (n v : string) :
  existsb (String.eqb n) (flag_names fs) = false ->
  map (fun f => if String.eqb (f_name f) n then mkFlag (f_name f) v (f_default f) true else f) fs
  = fs.
Proof.
  induction fs as [|g fs IH]; simpl; [reflexivity|].
  intros H. apply orb_false_iff in H as [H1 H2].
  rewrite String.eqb_sym, H1. f_equal. apply IH, H2.
Qed.

Lemma FlagSet_Set_fixed (fs : FlagSet) (n : string) (f : Flag) :
  names_distinct (flag_names fs) = true ->
  lookup_flag fs n = Some f -> f_changed f = true ->
  FlagSet_Set fs n (f_value f) = Some fs.
Proof.
  intros Hd Hl Hc. unfold FlagSet_Set. rewrite Hl. f_equal.
  revert Hd Hl. induction fs as [|g fs IH]; simpl; intros Hd Hl; [discriminate|].
  apply andb_prop in Hd as [Hn Hd]. apply negb_true_iff in Hn.
  destruct (String.eqb (f_name g) n) eqn:E.
  - injection Hl as Hgf. subst f. apply String.eqb_eq in E. subst n.
    rewrite map_set_absent by exact Hn.
    destruct g as [gn gv gd gc]; simpl in *. subst gc. reflexivity.
  - f_equal. apply IH; assumption.
Qed.

Lemma visit_all_fixed (st : Viper) (env : Env) (L : list string) (fs : FlagSet) :
  (forall n, In n L -> write_back_one st env fs n = fs) -> visit_all st env L fs = fs.
Proof.
  induction L as [|m L IH]; simpl; intros H; [reflexivity|].
  rewrite H by (left; reflexivity). apply IH. intros n Hn. apply H. right. exact Hn.
Qed.


(* ------------------------------------------------------------------ *)
(** ** A second [Init] *)

Lemma write_back_idempotent (st : Viper) (env : Env) (fs : FlagSet) :
  names_distinct (map ToLower (flag_names fs)) = true ->
  (forall n, In n (flag_names fs) -> assoc (ToLower n) (v_pflags st) = Some n) ->
  write_back st env (write_back st env fs) = write_back st env fs.
Proof.
  intros Hd Ho. pose proof (names_distinct_map _ _ Hd) as Hd'.
  set (fs' := write_back st env fs).
  assert (Hnames : flag_names fs' = flag_names fs)
    by exact (proj1 (visit_all_names st env (flag_names fs) fs)).
  change (visit_all st env (flag_names fs') fs' = fs').
  apply visit_all_fixed. intros n Hn. rewrite Hnames in Hn.
  destruct (lookup_flag_of_In fs n Hn) as [f Hf].
  pose proof (Ho n Hn) as Hown.
  assert (Hl' : lookup_flag fs' n = lookup_flag (write_back_one st env fs n) n)
    by (apply visit_all_own; assumption).
  rewrite write_back_one_same in Hl'.
  destruct (guard st env fs n) eqn:G.
  - rewrite Hf in Hl'. simpl in Hl'.
    assert (Hne : String.eqb (GetString st env fs n) "" = false).
    { unfold guard in G. apply andb_prop in G as [_ G]. apply negb_true_iff in G. exact G. }
    set (g := GetString st env fs n) in *.
    assert (Hpf : pflag_of st fs' (ToLower n) = Some (mkFlag (f_name f) g (f_default f) true))
      by (unfold pflag_of; rewrite Hown; exact Hl').
    assert (Hfind : forall b, find st env fs' (ToLower n) b =
                              or_else (assoc (ToLower n) (v_override st)) (Some g))
      by (intros b; unfold find, pflag_layer, flag_default_layer; rewrite Hpf; reflexivity).
    assert (Hg : or_else (assoc (ToLower n) (v_override st)) (Some g) = Some g).
    { destruct (assoc (ToLower n) (v_override st)) as [o|] eqn:Ov; [|reflexivity].
      simpl. f_equal. unfold g, GetString, find. rewrite Ov. reflexivity. }
    unfold write_back_one, IsSet, GetString. rewrite !Hfind, Hg.
    simpl. rewrite Hne. simpl.
    pose proof (FlagSet_Set_fixed fs' n (mkFlag (f_name f) g (f_default f) true)) as HS.
    cbn [f_value f_changed] in HS. rewrite HS; [reflexivity | | exact Hl' | reflexivity].
    rewrite Hnames. exact Hd'.
  - apply write_back_one_guard_false.
    rewrite (guard_pflag_ext st env fs' fs n); [exact G|].
    unfold pflag_of. rewrite Hown. exact Hl'.
Qed.

Lemma assoc_app_split {A} (k : string) (L X : list (string * A)) :
  assoc k (L ++ X) = match assoc k L with Some a => Some a | None => assoc k X end.
Proof.
  induction L as [|[k' a] L IH]; simpl; [reflexivity|].
  destruct (String.eqb k k'); [reflexivity | exact IH].
Qed.

Lemma find_ext (st1 st2 : Viper) (env : Env) (G : FlagSet) (k : string) (b : bool) :
  v_override st1 = v_override st2 ->
  (forall k, assoc k (v_pflags st1) = assoc k (v_pflags st2)) ->
  v_automaticEnvApplied st1 = v_automaticEnvApplied st2 ->
  v_envPrefix st1 = v_envPrefix st2 ->
  v_envKeyReplacer st1 = v_envKeyReplacer st2 ->
  v_allowEmptyEnv st1 = v_allowEmptyEnv st2 ->
  v_env st1 = v_env st2 ->
  v_config st1 = v_config st2 ->
  v_kvstore st1 = v_kvstore st2 ->
  v_defaults st1 = v_defaults st2 ->
  find st1 env G k b = find st2 env G k b.
Proof.
  destruct st1, st2; simpl. intros E1 Hpf E2 E3 E4 E5 E6 E7 E8 E9. subst.
  unfold find, pflag_layer, flag_default_layer, pflag_of, env_layer, bound_env_layer,
    getEnv, envKey, mergeWithEnvPrefix.
  simpl. rewrite Hpf. reflexivity.
Qed.

(** The store after steps 2 and 3 of [Init], field by field. *)
Lemma pipeline_shape (files : string -> FileState) (vl : Viperlet) (st : Viper) :
  exists cf,
  fst (config_step files vl (bind_env_step vl st)) =
  mkViper (v_override st) (v_pflags st) (bindEnv vl || v_automaticEnvApplied st)
    (if bindEnv vl && negb (String.eqb (envPrefix vl) "") then envPrefix vl else v_envPrefix st)
    (if bindEnv vl then match envKeyReplacer vl with
                        | Some r => Some r
                        | None => v_envKeyReplacer st
                        end
     else v_envKeyReplacer st)
    (v_allowEmptyEnv st) (v_env st) cf (v_configType st)
    (if String.eqb (configFile vl) "" then v_config st
     else if is_supported (config_type (v_configType st) (configFile vl)) then
       match files (configFile vl) with
       | FileContents kv => insensitivise kv
       | _ => v_config st
       end
     else v_config st)
    (v_kvstore st) (v_defaults st).
Proof.
  destruct st. unfold config_step, bind_env_step, SetEnvPrefix, SetEnvKeyReplacer, AutomaticEnv.
  destruct (bindEnv vl), (String.eqb (envPrefix vl) "") eqn:Ep, (envKeyReplacer vl);
    simpl; try rewrite Ep; simpl;
    (destruct (String.eqb (configFile vl) "") eqn:Ec; [eexists; reflexivity|]);
    unfold ReadInConfig, getConfigType, SetConfigFile; rewrite Ec; simpl;
    destruct (is_supported _); simpl;
    destruct (files (configFile vl)); simpl;
    repeat match goal with |- context [if ?b then _ else _] => destruct b end;
    eexists; reflexivity.
Qed.

Lemma config_step_err_indep (files : string -> FileState) (vl : Viperlet) (st st' : Viper) :
  v_configType st = v_configType st' ->
  snd (config_step files vl st) = snd (config_step files vl st').
Proof.
  intros Ht.
  unfold config_step. destruct (String.eqb (configFile vl) "") eqn:E; [reflexivity|].
  apply eqb_empty_false in E. unfold ReadInConfig.
  rewrite !getConfigType_SetConfigFile by exact E. rewrite Ht.
  rewrite !SetConfigFile_configFile by exact E.
  destruct (is_supported _); [|destruct (allowMissingConfig vl); reflexivity].
  destruct (files (configFile vl)), (allowMissingConfig vl); reflexivity.
Qed.

Lemma config_step_configType (files : string -> FileState) (vl : Viperlet) (st : Viper) :
  v_configType (fst (config_step files vl st)) = v_configType st.
Proof.
  destruct (config_step_shape files vl st) as [cf [cfg ->]]. reflexivity.
Qed.

Lemma Init_Some_eq (w : World) (vl : Viperlet) (fs : FlagSet) :
  Init w vl (Some fs) =
  let (st3, e) := config_step (w_files w) vl (bind_env_step vl (BindPFlags (Viperlet_Viper vl) fs)) in
  match e with
  | Some e => mkInitResult (set_viper vl st3) (Some fs) (Returned (Some e))
  | None => mkInitResult (set_viper vl st3) (Some (write_back st3 (w_env w) fs)) (Returned None)
  end.
Proof. reflexivity. Qed.

Lemma BindPFlags_names (st : Viper) (fs1 fs2 : FlagSet) :
  flag_names fs1 = flag_names fs2 -> v_pflags (BindPFlags st fs1) = v_pflags (BindPFlags st fs2).
Proof.
  intros H. simpl. rewrite !fold_prepend. f_equal. f_equal.
  assert (Hm : forall fs, map (fun f => (ToLower (f_name f), f_name f)) fs =
                          map (fun n => (ToLower n, n)) (flag_names fs))
    by (intros fs; unfold flag_names; rewrite map_map; reflexivity).
  rewrite !Hm, H. reflexivity.
Qed.

(** X9. [Init] is idempotent: calling it again with the Viperlet and the
    flag set it left gives back that flag set, with the same outcome
    (string flags, whose names have no key delimiter and are distinct up
    to case). *)
Theorem Init_idempotent (w : World) (vl : Viperlet) (fs fs' : FlagSet) :
  forallb flat_key (flag_names fs) = true ->
  names_distinct (map ToLower (flag_names fs)) = true ->
  r_flagset (Init w vl (Some fs)) = Some fs' ->
  let r2 := Init w (r_viperlet (Init w vl (Some fs))) (Some fs') in
  r_flagset r2 = Some fs' /\ r_outcome r2 = r_outcome (Init w vl (Some fs)).
Proof.
  intros _ Hd H1. cbv zeta.
  rewrite (Init_Some_eq w vl fs) in *.
  set (st0 := Viperlet_Viper vl) in *.
  destruct (config_step (w_files w) vl (bind_env_step vl (BindPFlags st0 fs))) as [st3 e1] eqn:C1.
  assert (Hct : v_configType st3 = v_configType st0).
  { pose proof (config_step_configType (w_files w) vl (bind_env_step vl (BindPFlags st0 fs))) as Hc.
    rewrite C1, bind_env_step_configType in Hc. exact Hc. }
  assert (Herr : forall st, v_configType st = v_configType st0 ->
                            snd (config_step (w_files w) vl (bind_env_step vl st)) = e1).
  { intros st Hst.
    rewrite (config_step_err_indep _ _ _ (bind_env_step vl (BindPFlags st0 fs))), C1; [reflexivity|].
    rewrite !bind_env_step_configType. exact Hst. }
  assert (Hpipe : forall st, config_step (w_files w) (set_viper vl st3) (bind_env_step (set_viper vl st3) st)
                             = config_step (w_files w) vl (bind_env_step vl st)) by reflexivity.
  destruct e1 as [e|]; cbn [r_viperlet r_flagset r_outcome] in H1 |- *; injection H1 as H1; subst fs';
    rewrite Init_Some_eq; change (Viperlet_Viper (set_viper vl st3)) with st3; rewrite Hpipe.
  - destruct (config_step (w_files w) vl (bind_env_step vl (BindPFlags st3 fs))) as [st4 e2] eqn:C2.
    assert (e2 = Some e) as ->
      by (change e2 with (snd (st4, e2)); rewrite <- C2; apply Herr; exact Hct).
    split; reflexivity.
  - set (fs' := write_back st3 (w_env w) fs).
    destruct (config_step (w_files w) vl (bind_env_step vl (BindPFlags st3 fs'))) as [st4 e2] eqn:C2.
    assert (e2 = None) as ->
      by (change e2 with (snd (st4, e2)); rewrite <- C2; apply Herr; exact Hct).
    cbn [r_flagset r_outcome]. split; [|reflexivity]. f_equal.
    assert (Hn : flag_names fs' = flag_names fs)
      by exact (proj1 (visit_all_names st3 (w_env w) (flag_names fs) fs)).
    destruct (pipeline_shape (w_files w) vl (BindPFlags st0 fs)) as [cf3 P3].
    destruct (pipeline_shape (w_files w) vl (BindPFlags st3 fs')) as [cf4 P4].
    rewrite C1 in P3. rewrite C2 in P4. simpl in P3, P4.
    assert (Hpf3 : v_pflags st3 = v_pflags (BindPFlags st0 fs)) by (rewrite P3; reflexivity).
    assert (Hpf4 : v_pflags st4 = v_pflags (BindPFlags st3 fs')) by (rewrite P4; reflexivity).
    assert (Hown : forall n, In n (flag_names fs) -> assoc (ToLower n) (v_pflags st3) = Some n)
      by (intros n Hin; rewrite Hpf3; apply BindPFlags_own; assumption).
    transitivity (write_back st3 (w_env w) fs').
    + unfold write_back. apply visit_all_find_ext. intros G k b.
      apply find_ext;
        [ | intros k'; rewrite Hpf4, (BindPFlags_names st3 fs' fs Hn);
            cbn [v_pflags BindPFlags]; rewrite Hpf3; cbn [v_pflags BindPFlags];
            rewrite !fold_prepend, !assoc_app_split;
            destruct (assoc k' _); reflexivity
        | .. ];
        rewrite P4; simpl; rewrite P3; simpl;
        destruct (bindEnv vl), (String.eqb (envPrefix vl) ""), (envKeyReplacer vl),
          (String.eqb (configFile vl) ""),
          (is_supported (config_type (v_configType st0) (configFile vl))),
          (w_files w (configFile vl)); reflexivity.
    + unfold fs'. apply write_back_idempotent; assumption.
Qed.

(* ------------------------------------------------------------------ *)
(** ** Where errors come from, and what [Init] reads *)

(** X10. Every error [Init] returns comes from reading the configuration
    file it was given: the path is set, and either its config type is not
    one viper supports and the error is [UnsupportedConfigError] for that
    type, or the type is supported and the error is the file's
    [os.ErrNotExist], I/O or parse error; the flag set is then left as
    passed. *)
Theorem Init_errors_come_from_config (w : World) (vl : Viperlet) (flagset : option FlagSet)
    (e : Error) :
  let t := config_type (v_configType (Viperlet_Viper vl)) (configFile vl) in
  r_outcome (Init w vl flagset) = Returned (Some e) ->
  r_flagset (Init w vl flagset) = flagset /\
  String.eqb (configFile vl) "" = false /\
  ((is_supported t = false /\ e = UnsupportedConfigError t) \/
   (is_supported t = true /\
    ((e = ErrNotExist (configFile vl) /\ w_files w (configFile vl) = FileAbsent) \/
     (exists m, (e = ErrIO m /\ w_files w (configFile vl) = FileUnreadable m) \/
                (e = ConfigParseError m /\ w_files w (configFile vl) = FileUnparsable m))))).
Proof.
  intros t. pose proof (Init_store_configType vl flagset) as Ht. unfold Init.
  destruct (config_step _ _ _) as [st3 err] eqn:C.
  destruct err as [e'|]; [|destruct flagset; discriminate].
  simpl. intros H. injection H as <-. split; [reflexivity|].
  unfold config_step in C. destruct (String.eqb (configFile vl) "") eqn:E; [discriminate|].
  split; [reflexivity|].
  apply eqb_empty_false in E. unfold ReadInConfig in C.
  rewrite getConfigType_SetConfigFile, Ht in C by exact E. fold t in C.
  rewrite SetConfigFile_configFile in C by exact E.
  destruct (is_supported t) eqn:S.
  - right. split; [reflexivity|].
    destruct (w_files w (configFile vl)), (allowMissingConfig vl); simpl in C;
      try discriminate; injection C as _ <-; eauto.
  - left. split; [reflexivity|].
    destruct (allowMissingConfig vl); simpl in C; injection C as _ <-; reflexivity.
Qed.

Lemma visit_all_env_ext (st : Viper) (env1 env2 : Env) (L : list string) (fs : FlagSet) :
  (forall fs k b, find st env1 fs k b = find st env2 fs k b) ->
  visit_all st env1 L fs = visit_all st env2 L fs.
Proof.
  intros H. revert fs. induction L as [|m L IH]; intros fs; simpl; [reflexivity|].
  replace (write_back_one st env1 fs m) with (write_back_one st env2 fs m); [apply IH|].
  unfold write_back_one, IsSet, GetString. rewrite !H. reflexivity.
Qed.

(** X11. Without an environment option, and with a store that neither
    has automatic environment lookup nor bound variables, [Init] does not
    read the environment: it ends the same way in any two environments. *)
Theorem Init_ignores_env_when_not_bound (w1 w2 : World) (vl : Viperlet) (flagset : option FlagSet) :
  w_files w1 = w_files w2 ->
  bindEnv vl = false ->
  v_automaticEnvApplied (Viperlet_Viper vl) = false ->
  v_env (Viperlet_Viper vl) = [] ->
  Init w1 vl flagset = Init w2 vl flagset.
Proof.
  intros Hf Hb Ha He. unfold Init. cbv zeta. rewrite Hf.
  destruct flagset as [fs|].
  - destruct (pipeline_shape (w_files w2) vl (BindPFlags (Viperlet_Viper vl) fs)) as [cf P].
    destruct (config_step (w_files w2) vl (bind_env_step vl (BindPFlags (Viperlet_Viper vl) fs)))
      as [st3 [e|]]; [reflexivity|].
    simpl in P. rewrite Hb in P. simpl in P.
    do 2 f_equal. unfold write_back. apply visit_all_env_ext. intros G k b.
    unfold find, env_layer, bound_env_layer. rewrite P. simpl. rewrite Ha, He. reflexivity.
  - destruct (config_step _ _ _) as [st3 [e|]]; reflexivity.
Qed.

(** X12. The config layer of the store [Init] leaves: the file's keys,
    lower-cased, after a successful read (a path set, a config type viper
    supports, and a file that parses); otherwise (no path, a config type
    viper does not support, or a read that failed, even a tolerated
    missing file) the config values the store held before. *)
Theorem Init_config_layer (w : World) (vl : Viperlet) (flagset : option FlagSet) :
  v_config (Viperlet_Viper (r_viperlet (Init w vl flagset))) =
  if String.eqb (configFile vl) "" then v_config (Viperlet_Viper vl)
  else if is_supported (config_type (v_configType (Viperlet_Viper vl)) (configFile vl)) then
    match w_files w (configFile vl) with
    | FileContents kv => insensitivise kv
    | _ => v_config (Viperlet_Viper vl)
    end
  else v_config (Viperlet_Viper vl).
Proof.
  rewrite Init_store. simpl.
  destruct (pipeline_shape (w_files w) vl
              (match flagset with
               | Some fs => BindPFlags (Viperlet_Viper vl) fs
               | None => Viperlet_Viper vl
               end)) as [cf P].
  rewrite P. simpl. destruct flagset; reflexivity.
Qed.

(* ------------------------------------------------------------------ *)
(** ** The earlier version *)

(** X13. The earlier [New] is the current [New] with the store created at
    once: same options, and its [Viper()] returns the store the current
    [Viper()] creates. *)
Theorem New_v0_creates_store (opts : list Option) :
  SimpleviperV0.New opts = set_viper (New opts) (Viperlet_Viper (New opts)) /\
  SimpleviperV0.Viperlet_Viper (SimpleviperV0.New opts) = Some (Viperlet_Viper (New opts)).
Proof.
  unfold SimpleviperV0.New, SimpleviperV0.Viperlet_Viper, New, set_viper, Viperlet_Viper.
  destruct (fold_left _ opts new_Viperlet) as [[x|] b p r c a]; simpl; split; reflexivity.
Qed.

Lemma config_step_v0_cases (files : string -> FileState) (vl : Viperlet) (st : Viper) :
  SimpleviperV0.config_step files vl st = config_step files vl st \/
  (String.eqb (configFile vl) "" = false /\ allowMissingConfig vl = true /\
   files (configFile vl) = FileAbsent /\
   SimpleviperV0.config_step files vl st =
     (SetConfigFile st (configFile vl), Some (ErrNotExist (configFile vl))) /\
   config_step files vl st = (SetConfigFile st (configFile vl), None)).
Proof.
  unfold SimpleviperV0.config_step, config_step.
  destruct (String.eqb (configFile vl) "") eqn:E; [left; reflexivity|].
  pose proof (eqb_empty_false _ E) as E'. unfold ReadInConfig.
  rewrite getConfigType_SetConfigFile by exact E'.
  destruct (is_supported _); [|destruct (allowMissingConfig vl); left; reflexivity].
  rewrite SetConfigFile_configFile by exact E'.
  destruct (files (configFile vl)) eqn:F, (allowMissingConfig vl) eqn:A; simpl;
    try (left; reflexivity).
  right. auto.
Qed.

(** X14. What changed in [Init] between the two versions, for a Viperlet
    holding a store: either both versions end the same way, or the flag
    set is nil and the earlier version panics (the current one returns a
    config error first), or the config file is optional and missing and
    the earlier version returns that error, leaving the flag set, where
    the current one succeeds. *)
Theorem Init_v0_differences (w : World) (vl : Viperlet) (st : Viper) (flagset : option FlagSet) :
  viper vl = Some st ->
  SimpleviperV0.Init w vl flagset = Init w vl flagset \/
  (flagset = None /\ r_outcome (SimpleviperV0.Init w vl flagset) = Panicked) \/
  (exists fs, flagset = Some fs /\
   String.eqb (configFile vl) "" = false /\ allowMissingConfig vl = true /\
   w_files w (configFile vl) = FileAbsent /\
   r_outcome (SimpleviperV0.Init w vl flagset) = Returned (Some (ErrNotExist (configFile vl))) /\
   r_flagset (SimpleviperV0.Init w vl flagset) = Some fs /\
   r_outcome (Init w vl flagset) = Returned None).
Proof.
  intros Hst. destruct flagset as [fs|].
  2: { right. left. unfold SimpleviperV0.Init. rewrite Hst. split; reflexivity. }
  rewrite Init_Some_eq. unfold SimpleviperV0.Init, Viperlet_Viper. rewrite Hst. cbv zeta.
  destruct (config_step_v0_cases (w_files w) vl (bind_env_step vl (BindPFlags st fs)))
    as [Heq | (E & A & F & H0 & H1)].
  - left. rewrite Heq. destruct (config_step _ _ _) as [st3 [e|]]; reflexivity.
  - right. right. exists fs. rewrite H0, H1. simpl. auto 7.
Qed.

(** X15. The change of the optional-config check: for a Viperlet holding
    a store, an optional config file with a config type viper supports
    that is missing makes the earlier [Init] return the file's
    [os.ErrNotExist] error and leave the flag set, where the current
    [Init] returns nil. *)
Theorem Init_v0_optional_missing_fails (w : World) (vl : Viperlet) (st : Viper) (fs : FlagSet) :
  viper vl = Some st ->
  String.eqb (configFile vl) "" = false ->
  allowMissingConfig vl = true ->
  is_supported (config_type (v_configType st) (configFile vl)) = true ->
  w_files w (configFile vl) = FileAbsent ->
  r_outcome (SimpleviperV0.Init w vl (Some fs)) = Returned (Some (ErrNotExist (configFile vl))) /\
  r_flagset (SimpleviperV0.Init w vl (Some fs)) = Some fs /\
  r_outcome (Init w vl (Some fs)) = Returned None.
Proof.
  intros Hst E A S F. pose proof (eqb_empty_false _ E) as E'.
  assert (H0 : forall x, v_configType x = v_configType st ->
                         SimpleviperV0.config_step (w_files w) vl x =
                         (SetConfigFile x (configFile vl), Some (ErrNotExist (configFile vl)))).
  { intros x Hx. unfold SimpleviperV0.config_step. rewrite E. unfold ReadInConfig.
    rewrite getConfigType_SetConfigFile, Hx, S by exact E'.
    rewrite SetConfigFile_configFile by exact E'. rewrite F, A. reflexivity. }
  assert (S' : is_supported (config_type (v_configType (bind_env_step vl (BindPFlags st fs)))
                                         (configFile vl)) = true)
    by (rewrite bind_env_step_configType; exact S).
  unfold SimpleviperV0.Init. rewrite Hst. cbv zeta.
  rewrite H0 by (rewrite bind_env_step_configType; reflexivity).
  rewrite Init_Some_eq. unfold Viperlet_Viper at 1. rewrite Hst.
  rewrite (config_step_absent _ _ _ E' S' F), A.
  repeat split; reflexivity.
Qed.

(* ================================================================== *)
(** * Instances at concrete inputs *)

Import Scenarios.





Lemma Init_empty_value_never_overwrites_witness :
  lookup_flag (flagset_after (Init world app (Some flags))) "mode" = Some (mkFlag "mode" "" "" false).
Proof.
  apply (Init_empty_value_never_overwrites world app flags
           (flagset_after (Init world app (Some flags))) "mode" (mkFlag "mode" "" "" false));
    vm_compute; reflexivity.
Defined.

Lemma Init_required_config_missing_witness :
  let vl := New [WithConfig "missing.yml"] in
  (exists e, r_outcome (Init world vl (Some flags)) = Returned (Some e) /\
             (e = ErrNotExist (configFile vl) \/
              e = UnsupportedConfigError
                    (config_type (v_configType (Viperlet_Viper vl)) (configFile vl)))) /\
  r_flagset (Init world vl (Some flags)) = Some flags.
Proof.
  apply (Init_required_config_missing world (New [WithConfig "missing.yml"]) (Some flags));
    vm_compute; reflexivity.
Defined.

Lemma Init_optional_config_missing_witness :
  let vl := New [WithEnvPrefix "APP"; WithOptionalConfig "missing.yml"] in
  let vl0 := mkViperlet (viper vl) (bindEnv vl) (envPrefix vl) (envKeyReplacer vl) ""
                        (allowMissingConfig vl) in
  r_flagset (Init world vl (Some flags)) = r_flagset (Init world vl0 (Some flags)) /\
  r_outcome (Init world vl (Some flags)) = r_outcome (Init world vl0 (Some flags)) /\
  (forall fs, Some flags = Some fs -> r_outcome (Init world vl (Some flags)) = Returned None).
Proof.
  apply (Init_optional_config_missing world
           (New [WithEnvPrefix "APP"; WithOptionalConfig "missing.yml"]) (Some flags));
    vm_compute; reflexivity.
Defined.

Lemma Init_optional_config_missing_counterexample :
  w_files world "missing" = FileAbsent /\
  r_outcome (Init world (New [WithOptionalConfig "missing"]) (Some flags)) =
    Returned (Some (UnsupportedConfigError "")) /\
  r_outcome (Init world (New [WithOptionalConfig "missing.yml"]) (Some flags)) = Returned None.
Proof. vm_compute. repeat split. Qed.

Lemma Init_config_load_error_witness :
  exists e, is_not_found e = false /\
            r_outcome (Init world (New [WithOptionalConfig "bad.yml"]) (Some flags)) = Returned (Some e) /\
            r_flagset (Init world (New [WithOptionalConfig "bad.yml"]) (Some flags)) = Some flags.
Proof.
  apply (Init_config_load_error world (New [WithOptionalConfig "bad.yml"]) (Some flags)
           "yaml: line 1: did not find expected key").
  - vm_compute. reflexivity.
  - right. vm_compute. reflexivity.
Defined.


Lemma New_last_option_wins_witness :
  let pre := [WithEnv] in
  let mid := [WithEnvPrefix "APP"] in
  let post := [WithEnv] in
  (forall o, New (pre ++ [o]) = apply_opt o (New pre)) /\
  (configFile (New (pre ++ WithConfig "a.yml" :: mid ++ WithOptionalConfig "b.yml" :: post)) = "b.yml" /\
   allowMissingConfig (New (pre ++ WithConfig "a.yml" :: mid ++ WithOptionalConfig "b.yml" :: post)) = true) /\
  (configFile (New (pre ++ WithOptionalConfig "b.yml" :: mid ++ WithConfig "a.yml" :: post)) = "a.yml" /\
   allowMissingConfig (New (pre ++ WithOptionalConfig "b.yml" :: mid ++ WithConfig "a.yml" :: post)) = false).
Proof.
  apply (New_last_option_wins [WithEnv] [WithEnvPrefix "APP"] [WithEnv] "a.yml" "b.yml").
  reflexivity.
Defined.

Lemma New_env_options_enable_bindEnv_witness :
  bindEnv (New [WithEnvPrefix "APP"; WithConfig "app.yml"]) = true.
Proof.
  apply New_env_options_enable_bindEnv.
  left. exists "APP". simpl. left. reflexivity.
Defined.

Lemma Init_nil_flagset_counterexample :
  r_outcome (Init world (New [WithConfig "missing.yml"]) None) =
    Returned (Some (ErrNotExist "missing.yml")).
Proof. vm_compute. reflexivity. Qed.

Lemma Init_keeps_flag_names_defaults_witness :
  map f_name (flagset_after (Init world app (Some flags))) = map f_name flags /\
  map f_default (flagset_after (Init world app (Some flags))) = map f_default flags.
Proof.
  apply (Init_keeps_flag_names_defaults world app flags
           (flagset_after (Init world app (Some flags)))).
  vm_compute. reflexivity.
Defined.

Lemma Init_flag_as_parsed_or_nonempty_witness :
  lookup_flag (flagset_after (Init world app (Some flags))) "port" = lookup_flag flags "port" \/
  exists f s, lookup_flag flags "port" = Some f /\
    lookup_flag (flagset_after (Init world app (Some flags))) "port" =
      Some (mkFlag (f_name f) s (f_default f) true) /\
    String.eqb s "" = false.
Proof.
  apply (Init_flag_as_parsed_or_nonempty world app flags
           (flagset_after (Init world app (Some flags))) "port").
  vm_compute. reflexivity.
Defined.

Lemma Init_no_config_path_succeeds_witness :
  r_outcome (Init world (New [WithEnvPrefix "APP"]) (Some flags)) = Returned None /\
  (forall w', w_env w' = w_env world ->
   Init w' (New [WithEnvPrefix "APP"]) (Some flags) = Init world (New [WithEnvPrefix "APP"]) (Some flags)).
Proof.
  apply (Init_no_config_path_succeeds world (New [WithEnvPrefix "APP"]) flags).
  vm_compute. reflexivity.
Defined.

Lemma Init_optional_never_not_found_witness :
  is_not_found (ConfigParseError "yaml: line 1: did not find expected key") = false.
Proof.
  apply (Init_optional_never_not_found world (New [WithEnvPrefix "APP"; WithOptionalConfig "bad.yml"])
           (Some flags) (ConfigParseError "yaml: line 1: did not find expected key"));
    vm_compute; reflexivity.
Defined.

Lemma Init_tolerance_only_for_missing_witness :
  let r1 := Init world (apply_opt (WithConfig "app.yml") (New [WithEnvPrefix "APP"])) (Some flags) in
  let r2 := Init world (apply_opt (WithOptionalConfig "app.yml") (New [WithEnvPrefix "APP"])) (Some flags) in
  r_flagset r1 = r_flagset r2 /\ r_outcome r1 = r_outcome r2 /\
  Viperlet_Viper (r_viperlet r1) = Viperlet_Viper (r_viperlet r2).
Proof.
  apply (Init_tolerance_only_for_missing world (New [WithEnvPrefix "APP"]) "app.yml" (Some flags)).
  vm_compute. reflexivity.
Defined.



Lemma Init_idempotent_witness :
  let r2 := Init world (r_viperlet (Init world app (Some flags)))
                 (Some (flagset_after (Init world app (Some flags)))) in
  r_flagset r2 = Some (flagset_after (Init world app (Some flags))) /\
  r_outcome r2 = r_outcome (Init world app (Some flags)).
Proof.
  apply (Init_idempotent world app flags (flagset_after (Init world app (Some flags))));
    vm_compute; reflexivity.
Defined.

Lemma Init_errors_come_from_config_witness :
  let vl := New [WithConfig "app.conf"] in
  let e := UnsupportedConfigError "conf" in
  let t := config_type (v_configType (Viperlet_Viper vl)) (configFile vl) in
  r_flagset (Init world vl (Some flags)) = Some flags /\
  String.eqb (configFile vl) "" = false /\
  ((is_supported t = false /\ e = UnsupportedConfigError t) \/
   (is_supported t = true /\
    ((e = ErrNotExist (configFile vl) /\ w_files world (configFile vl) = FileAbsent) \/
     (exists m, (e = ErrIO m /\ w_files world (configFile vl) = FileUnreadable m) \/
                (e = ConfigParseError m /\ w_files world (configFile vl) = FileUnparsable m))))).
Proof.
  apply (Init_errors_come_from_config world (New [WithConfig "app.conf"]) (Some flags)
           (UnsupportedConfigError "conf")).
  vm_compute. reflexivity.
Defined.

Lemma Init_ignores_env_when_not_bound_witness :
  Init world (New [WithConfig "app.yml"]) (Some flags) =
  Init (mkWorld [] files) (New [WithConfig "app.yml"]) (Some flags).
Proof.
  apply (Init_ignores_env_when_not_bound world (mkWorld [] files) (New [WithConfig "app.yml"])
           (Some flags)); reflexivity.
Defined.

Lemma Init_v0_differences_witness :
  SimpleviperV0.Init world app_preset (Some flags) = Init world app_preset (Some flags) \/
  (Some flags = None /\ r_outcome (SimpleviperV0.Init world app_preset (Some flags)) = Panicked) \/
  (exists fs, Some flags = Some fs /\
   String.eqb (configFile app_preset) "" = false /\ allowMissingConfig app_preset = true /\
   w_files world (configFile app_preset) = FileAbsent /\
   r_outcome (SimpleviperV0.Init world app_preset (Some flags)) =
     Returned (Some (ErrNotExist (configFile app_preset))) /\
   r_flagset (SimpleviperV0.Init world app_preset (Some flags)) = Some fs /\
   r_outcome (Init world app_preset (Some flags)) = Returned None).
Proof.
  apply (Init_v0_differences world app_preset preset (Some flags)). reflexivity.
Defined.

Lemma Init_v0_optional_missing_fails_witness :
  let vl := SimpleviperV0.New [WithEnvPrefix "APP"; WithOptionalConfig "missing.yml"] in
  r_outcome (SimpleviperV0.Init world vl (Some flags)) = Returned (Some (ErrNotExist "missing.yml")) /\
  r_flagset (SimpleviperV0.Init world vl (Some flags)) = Some flags /\
  r_outcome (Init world vl (Some flags)) = Returned None.
Proof.
  apply (Init_v0_optional_missing_fails world
           (SimpleviperV0.New [WithEnvPrefix "APP"; WithOptionalConfig "missing.yml"]) viper_New flags);
    vm_compute; reflexivity.
Defined.
